(** * The /analyze-news handler of backend/app.py

    A shallow embedding of the request handler [analyze_news_endpoint] and of
    its two helpers [extract_claim_with_gemini] and [query_fact_check_api].

    - Python values (what [request.json], [json.loads] and [response.json()]
      produce) are the inductive type [value]; a dict is an association list
      that keeps insertion order and has one entry per key.
    - Text is [string].  Case mapping and [strip] are the ASCII ones: the
      characters outside ASCII are left as they are.  On a text of ASCII
      characters they are Python's [lower], [upper] and [strip]; Python also
      maps or strips some characters outside ASCII, which the model does not
      describe.
    - The two remote services and the JSON decoder are not code of this
      program: they are the fields of a record [upstream] that every
      definition takes as an argument.
    - An exception is a value [exn]; a computation that makes outbound calls
      returns its outcome together with the list of the calls it made. *)

From Stdlib Require Import String Ascii List ZArith Bool Lia.
From Stdlib Require Import Floats.PrimFloat.
Import ListNotations.

Open Scope string_scope.
Open Scope Z_scope.

Set Warnings "-register-all".

(** ** Text *)

Module Str.

(** The double quote, for the messages that contain one. *)
Definition dq : string := String (ascii_of_nat 34) EmptyString.

Definition is_upper (c : ascii) : bool :=
  let n := nat_of_ascii c in (Nat.leb 65 n && Nat.leb n 90)%bool.

Definition is_lower (c : ascii) : bool :=
  let n := nat_of_ascii c in (Nat.leb 97 n && Nat.leb n 122)%bool.

Definition lower_char (c : ascii) : ascii :=
  if is_upper c then ascii_of_nat (nat_of_ascii c + 32) else c.

Definition upper_char (c : ascii) : ascii :=
  if is_lower c then ascii_of_nat (nat_of_ascii c - 32) else c.

Fixpoint map (f : ascii -> ascii) (s : string) : string :=
  match s with
  | EmptyString => EmptyString
  | String c s' => String (f c) (map f s')
  end.

(** [s.lower()] and [s.upper()]. *)
Definition lower (s : string) : string := map lower_char s.
Definition upper (s : string) : string := map upper_char s.

(** The characters [str.strip()] removes: tab, line feed, vertical tab,
    form feed, carriage return, the four separators 28..31 and space. *)
Definition is_space (c : ascii) : bool :=
  let n := nat_of_ascii c in
  ((Nat.leb 9 n && Nat.leb n 13) || (Nat.leb 28 n && Nat.leb n 32))%bool.

Fixpoint lstrip (s : string) : string :=
  match s with
  | EmptyString => EmptyString
  | String c s' => if is_space c then lstrip s' else s
  end.

Fixpoint rstrip (s : string) : string :=
  match s with
  | EmptyString => EmptyString
  | String c s' =>
      match rstrip s' with
      | EmptyString => if is_space c then EmptyString else String c EmptyString
      | r => String c r
      end
  end.

(** [s.strip()]. *)
Definition strip (s : string) : string := rstrip (lstrip s).

(** [s.find(sub)]: the lowest index where [sub] occurs, or -1. *)
Fixpoint find_from (sub s : string) (i : Z) : Z :=
  if prefix sub s then i
  else match s with
       | EmptyString => -1
       | String _ s' => find_from sub s' (i + 1)
       end.

Definition find (sub s : string) : Z := find_from sub s 0.

(** [s.rfind(sub)]: the highest index where [sub] occurs, or -1. *)
Fixpoint rfind_from (sub s : string) (i : Z) : Z :=
  match s with
  | EmptyString => if prefix sub s then i else -1
  | String _ s' =>
      let r := rfind_from sub s' (i + 1) in
      if r =? -1 then (if prefix sub s then i else -1) else r
  end.

Definition rfind (sub s : string) : Z := rfind_from sub s 0.

(** [sub in s]. *)
Fixpoint contains (sub s : string) : bool :=
  if prefix sub s then true
  else match s with
       | EmptyString => false
       | String _ s' => contains sub s'
       end.

(** [s[a:b]] for indices that are not negative. *)
Definition slice (s : string) (a b : Z) : string :=
  substring (Z.to_nat a) (Z.to_nat (b - a)) s.

End Str.

(** ** Python values *)

Inductive value : Type :=
| VNone
| VBool (b : bool)
| VInt (z : Z)
| VFloat (f : float)
| VStr (s : string)
| VList (l : list value)
| VDict (d : list (string * value)).

Definition dict : Type := list (string * value).

(** [type(v).__name__]. *)
Definition type_name (v : value) : string :=
  match v with
  | VNone => "NoneType"
  | VBool _ => "bool"
  | VInt _ => "int"
  | VFloat _ => "float"
  | VStr _ => "str"
  | VList _ => "list"
  | VDict _ => "dict"
  end.

(** [bool(v)]. *)
Definition truthy (v : value) : bool :=
  match v with
  | VNone => false
  | VBool b => b
  | VInt z => negb (z =? 0)
  | VFloat f => negb (PrimFloat.eqb f PrimFloat.zero)
  | VStr s => negb (s =? "")%string
  | VList l => match l with [] => false | _ => true end
  | VDict d => match d with [] => false | _ => true end
  end.

(** ** Exceptions and outcomes *)

Inductive exn_class : Type :=
| JSONDecodeError
| RequestException
| AttributeError
| TypeError
| KeyError
| IndexError
| OtherException.

(** An exception: its class and [str(e)]. *)
Record exn : Type := mk_exn { exn_class_of : exn_class; exn_str : string }.

Inductive outcome (A : Type) : Type :=
| Val (a : A)
| Exc (e : exn).

Arguments Val {A} a.
Arguments Exc {A} e.

Definition obind {A B : Type} (m : outcome A) (f : A -> outcome B) : outcome B :=
  match m with
  | Val a => f a
  | Exc e => Exc e
  end.

Declare Scope outcome_scope.
Delimit Scope outcome_scope with outcome.
Notation "x <- m ;; k" := (obind m (fun x => k))
  (at level 61, m at next level, right associativity) : outcome_scope.

(** [except json.JSONDecodeError]. *)
Definition is_json_decode_error (e : exn) : bool :=
  match exn_class_of e with
  | JSONDecodeError => true
  | _ => false
  end.

(** [except AttributeError], as [hasattr] does. *)
Definition is_attribute_error (e : exn) : bool :=
  match exn_class_of e with
  | AttributeError => true
  | _ => false
  end.

(** ** Dicts *)

Fixpoint dict_get (d : dict) (k : string) : option value :=
  match d with
  | [] => None
  | (k', v) :: d' => if (k' =? k)%string then Some v else dict_get d' k
  end.

(** [k in d]. *)
Definition dict_has (d : dict) (k : string) : bool :=
  match dict_get d k with
  | Some _ => true
  | None => false
  end.

(** [d[k] = v]: the entry of [k] is replaced where it stands, a new key goes
    to the end. *)
Fixpoint dict_set (d : dict) (k : string) (v : value) : dict :=
  match d with
  | [] => [(k, v)]
  | (k', v') :: d' =>
      if (k' =? k)%string then (k, v) :: d' else (k', v') :: dict_set d' k v
  end.

(** [{**d, **e}]. *)
Definition dict_update (d e : dict) : dict :=
  fold_left (fun acc kv => dict_set acc (fst kv) (snd kv)) e d.

(** ** The operators and methods the program applies to values

    The messages are the ones CPython 3 gives. *)

Definition attribute_error (v : value) (attr : string) : exn :=
  mk_exn AttributeError
    ("'" ++ type_name v ++ "' object has no attribute '" ++ attr ++ "'").

Definition type_error (msg : string) : exn := mk_exn TypeError msg.

Definition not_subscriptable (v : value) : exn :=
  type_error ("'" ++ type_name v ++ "' object is not subscriptable").

(** [v.get(k, default)]. *)
Definition py_get (v : value) (k : string) (default : value) : outcome value :=
  match v with
  | VDict d => Val (match dict_get d k with Some x => x | None => default end)
  | _ => Exc (attribute_error v "get")
  end.

(** [k in v] for a text [k]. *)
Definition py_in (k : string) (v : value) : outcome bool :=
  match v with
  | VDict d => Val (dict_has d k)
  | VList l =>
      Val (existsb (fun x => match x with VStr s => (s =? k)%string | _ => false end) l)
  | VStr s => Val (Str.contains k s)
  | _ => Exc (type_error ("argument of type '" ++ type_name v ++ "' is not iterable"))
  end.

(** [v[k]] for a text [k]. *)
Definition py_getitem (v : value) (k : string) : outcome value :=
  match v with
  | VDict d =>
      match dict_get d k with
      | Some x => Val x
      | None => Exc (mk_exn KeyError ("'" ++ k ++ "'"))
      end
  | VList _ => Exc (type_error "list indices must be integers or slices, not str")
  | VStr _ => Exc (type_error "string indices must be integers, not 'str'")
  | _ => Exc (not_subscriptable v)
  end.

(** [v[0]]. *)
Definition py_first (v : value) : outcome value :=
  match v with
  | VList (x :: _) => Val x
  | VList [] => Exc (mk_exn IndexError "list index out of range")
  | VStr (String c _) => Val (VStr (String c EmptyString))
  | VStr EmptyString => Exc (mk_exn IndexError "string index out of range")
  | VDict _ => Exc (mk_exn KeyError "0")
  | _ => Exc (not_subscriptable v)
  end.

(** [len(v)]. *)
Definition py_len (v : value) : outcome Z :=
  match v with
  | VList l => Val (Z.of_nat (List.length l))
  | VStr s => Val (Z.of_nat (String.length s))
  | VDict d => Val (Z.of_nat (List.length d))
  | _ => Exc (type_error ("object of type '" ++ type_name v ++ "' has no len()"))
  end.

(** [v[k] = x] for a text [k]. *)
Definition py_setitem (v : value) (k : string) (x : value) : outcome value :=
  match v with
  | VDict d => Val (VDict (dict_set d k x))
  | VList _ => Exc (type_error "list indices must be integers or slices, not str")
  | _ => Exc (type_error ("'" ++ type_name v ++ "' object does not support item assignment"))
  end.

(** An integer as a float, exact below 2^53: the program compares floats with
    20 and with 80 only. *)
Fixpoint float_of_pos (p : positive) : float :=
  match p with
  | xH => PrimFloat.one
  | xO q => PrimFloat.mul PrimFloat.two (float_of_pos q)
  | xI q => PrimFloat.add (PrimFloat.mul PrimFloat.two (float_of_pos q)) PrimFloat.one
  end.

Definition float_of_Z (n : Z) : float :=
  match n with
  | Z0 => PrimFloat.zero
  | Zpos p => float_of_pos p
  | Zneg p => PrimFloat.opp (float_of_pos p)
  end.

(** [n < v] and [n > v] for an integer [n]. *)
Definition py_int_lt (n : Z) (v : value) : outcome bool :=
  match v with
  | VInt z => Val (n <? z)
  | VBool b => Val (n <? (if b then 1 else 0))
  | VFloat f => Val (PrimFloat.ltb (float_of_Z n) f)
  | _ => Exc (type_error ("'<' not supported between instances of 'int' and '"
                          ++ type_name v ++ "'"))
  end.

Definition py_int_gt (n : Z) (v : value) : outcome bool :=
  match v with
  | VInt z => Val (n >? z)
  | VBool b => Val (n >? (if b then 1 else 0))
  | VFloat f => Val (PrimFloat.ltb f (float_of_Z n))
  | _ => Exc (type_error ("'>' not supported between instances of 'int' and '"
                          ++ type_name v ++ "'"))
  end.

(** [min(v, n)]: [n] when [n < v], else [v] itself. *)
Definition py_min (v : value) (n : Z) : outcome value :=
  (b <- py_int_lt n v ;; Val (if b then VInt n else v))%outcome.

(** [max(v, n)]: [n] when [n > v], else [v] itself. *)
Definition py_max (v : value) (n : Z) : outcome value :=
  (b <- py_int_gt n v ;; Val (if b then VInt n else v))%outcome.

(** [s + v] for a text [s]. *)
Definition py_concat (s : string) (v : value) : outcome value :=
  match v with
  | VStr t => Val (VStr (s ++ t))
  | _ => Exc (type_error ("can only concatenate str (not " ++ Str.dq ++ type_name v
                          ++ Str.dq ++ ") to str"))
  end.

(** [{**v}]. *)
Definition py_mapping (v : value) : outcome dict :=
  match v with
  | VDict d => Val d
  | _ => Exc (type_error ("'" ++ type_name v ++ "' object is not a mapping"))
  end.

(** ** The upstream services *)

(** A prompt is the template that is filled and the values that fill it:
    [ClaimPrompt text] is the claim-extraction prompt of
    [extract_claim_with_gemini]; [AnalysisPrompt news_text shown_url] is the
    analysis prompt of the handler, [shown_url] being
    [news_url if news_url else 'Not provided']. *)
Inductive prompt : Type :=
| ClaimPrompt (text : value)
| AnalysisPrompt (news_text : value) (shown_url : value).

(** What [model.generate_content] returns: [response.candidates], each with
    its [content] (absent when it is falsy), the [parts] of a content and the
    [text] of a part; [response.text] is a property that may raise. *)
Record part : Type := mk_part { part_text : string }.
Record gen_content : Type := mk_gen_content { parts : list part }.
Record candidate : Type := mk_candidate { candidate_content : option gen_content }.
Record gen_response : Type := mk_gen_response {
  candidates : list candidate;
  response_text : outcome string
}.

(** What [requests.get] returns: [raise_for_status()] and [json()]. *)
Record http_response : Type := mk_http_response {
  raise_for_status : outcome unit;
  response_json : outcome value
}.

Record upstream : Type := mk_upstream {
  (** The environment variable read at start-up. *)
  GOOGLE_FACT_CHECK_API_KEY : string;
  (** [genai.GenerativeModel('gemini-2.0-flash').generate_content(prompt)];
      [None] is the Python [None]. *)
  generate_content : prompt -> outcome (option gen_response);
  (** [requests.get(api_url, params=params)] with the three parameters
      [query], [key] and [languageCode]. *)
  requests_get : string -> string -> string -> outcome http_response;
  (** [json.loads]. *)
  json_loads : string -> outcome value
}.

(** An outbound call. *)
Inductive call : Type :=
| CallModel (p : prompt)
| CallRegistry (query key languageCode : string).

(** A computation that makes outbound calls: its outcome and the calls made,
    in order. *)
Definition io (A : Type) : Type := (outcome A * list call)%type.

Definition io_ret {A : Type} (a : A) : io A := (Val a, []).

Definition io_lift {A : Type} (m : outcome A) : io A := (m, []).

Definition io_bind {A B : Type} (m : io A) (f : A -> io B) : io B :=
  match m with
  | (Val a, t) => let (r, t') := f a in (r, (t ++ t')%list)
  | (Exc e, t) => (Exc e, t)
  end.

(** [try: m except Exception as e: h e]. *)
Definition io_catch {A : Type} (m : io A) (h : exn -> io A) : io A :=
  match m with
  | (Val a, t) => (Val a, t)
  | (Exc e, t) => let (r, t') := h e in (r, (t ++ t')%list)
  end.

Declare Scope io_scope.
Delimit Scope io_scope with io.
Notation "x <- m ;; k" := (io_bind m (fun x => k))
  (at level 61, m at next level, right associativity) : io_scope.

Definition calls_of {A : Type} (m : io A) : list call := snd m.
Definition outcome_of {A : Type} (m : io A) : outcome A := fst m.

Section Handler.

Variable U : upstream.

Definition call_model (p : prompt) : io (option gen_response) :=
  (generate_content U p, [CallModel p]).

Definition call_registry (query key languageCode : string) : io http_response :=
  (requests_get U query key languageCode, [CallRegistry query key languageCode]).

(** *** extract_claim_with_gemini *)

Definition NO_CLAIM : string := "No specific claim identified".

(** The text of the first part of the first candidate, when the response has
    one (lines 40-43). *)
Definition first_part_text (response : option gen_response) : option string :=
  match response with
  | Some r =>
      match candidates r with
      | c :: _ =>
          match candidate_content c with
          | Some ct =>
              match parts ct with
              | p :: _ => Some (part_text p)
              | [] => None
              end
          | None => None
          end
      | [] => None
      end
  | None => None
  end.

Definition extract_claim_with_gemini (text : value) : io (option string) :=
  io_catch
    (response <- call_model (ClaimPrompt text) ;;
     match first_part_text response with
     | Some t =>
         let claim := Str.strip t in
         io_ret (if (claim =? NO_CLAIM)%string then None else Some claim)
     | None => io_ret None
     end)%io
    (fun _ => io_ret None).

(** *** query_fact_check_api *)

(** The dict the helper returns, with its three keys. *)
Record fact_check : Type := mk_fact_check {
  fc_verdict : value;
  fc_url : value;
  fc_publisher : value
}.

(** Lines 73-87: what is read from the decoded body [data]. *)
Definition first_review (data : value) : outcome (option fact_check) :=
  (if truthy data then
     has_claims <- py_in "claims" data ;;
     if has_claims then
       claims <- py_getitem data "claims" ;;
       n <- py_len claims ;;
       if n >? 0 then
         first_claim <- py_first claims ;;
         claim_review <- py_get first_claim "claimReview" (VList []) ;;
         if truthy claim_review then
           r1 <- py_first claim_review ;;
           verdict <- py_get r1 "textualRating" VNone ;;
           r2 <- py_first claim_review ;;
           url <- py_get r2 "url" VNone ;;
           r3 <- py_first claim_review ;;
           pub <- py_get r3 "publisher" (VDict []) ;;
           publisher <- py_get pub "name" (VStr "Unknown") ;;
           Val (Some (mk_fact_check verdict url publisher))
         else Val None
       else Val None
     else Val None
   else Val None)%outcome.

Definition query_fact_check_api (claim : string) : io (option fact_check) :=
  if (GOOGLE_FACT_CHECK_API_KEY U =? "")%string then io_ret None
  else
    io_catch
      (response <- call_registry claim (GOOGLE_FACT_CHECK_API_KEY U) "en" ;;
       _ <- io_lift (raise_for_status response) ;;
       data <- io_lift (response_json response) ;;
       io_lift (first_review data))%io
      (fun _ => io_ret None).

(** *** analyze_news_endpoint *)

(** What the handler returns: the status code and the JSON body. *)
Record http_reply : Type := mk_http_reply { status : Z; body : value }.

(** [jsonify(d), code]. *)
Definition jsonify (d : dict) (code : Z) : http_reply := mk_http_reply code (VDict d).

Definition details_50 : value :=
  VDict [("sourceReliability", VInt 50); ("contentAnalysis", VInt 50);
         ("factChecking", VInt 50); ("linguisticAnalysis", VInt 50)].

(** The dict literal that lines 157-165, 172-177, 179-184 and 188-193 build,
    with its explanation and its disclaimer. *)
Definition default_result (explanation disclaimer : string) : dict :=
  [("credibilityScore", VInt 50);
   ("classification", VStr "uncertain");
   ("explanation", VStr explanation);
   ("details", details_50);
   ("disclaimer", VStr disclaimer)].

Definition disclaimer_tail : string :=
  " For full fact-checking, independent verification from multiple trusted sources is recommended.".

(** Lines 157-165. *)
Definition default_not_recognizable : dict :=
  default_result
    "AI content analysis failed: Could not parse Gemini's response (not valid JSON or incomplete)."
    ("AI content analysis failed." ++ disclaimer_tail).

(** Lines 172-177. *)
Definition default_missing_keys : dict :=
  default_result
    "AI content analysis returned an unexpected structure (missing keys)."
    ("AI content analysis returned an unexpected structure." ++ disclaimer_tail).

(** Lines 179-184. *)
Definition default_no_json_string : dict :=
  default_result
    "AI content analysis failed: No JSON string found in Gemini's response."
    ("AI content analysis failed." ++ disclaimer_tail).

(** Lines 188-193. *)
Definition default_malformed : dict :=
  default_result
    "AI content analysis returned malformed JSON."
    ("AI content analysis returned malformed JSON." ++ disclaimer_tail).

Definition REQUIRED_KEYS : list string :=
  ["credibilityScore"; "classification"; "explanation"; "details"].

(** [all(k in v for k in keys)]: stops at the first key that is absent. *)
Fixpoint py_all_in (keys : list string) (v : value) : outcome bool :=
  match keys with
  | [] => Val true
  | k :: keys' =>
      (b <- py_in k v ;; if b then py_all_in keys' v else Val false)%outcome
  end.

(** Lines 150-165: [json_string] and [ai_result] after the search for the
    braces. *)
Definition locate_json (text : string) : string * value :=
  let json_start := Str.find "{" text in
  let json_end := Str.rfind "}" text in
  if (negb (json_start =? -1) && negb (json_end =? -1) && (json_end >? json_start))%bool
  then (Str.slice text json_start (json_end + 1), VDict [])
  else ("", VDict default_not_recognizable).

(** Lines 150-193: the assessor's result for the text of the model's
    response. *)
Definition assess (text : string) : outcome value :=
  let '(json_string, ai_result) := locate_json text in
  let attempt : outcome value :=
    if negb (json_string =? "")%string then
      (parsed <- json_loads U json_string ;;
       complete <- py_all_in REQUIRED_KEYS parsed ;;
       if complete then Val parsed else Val (VDict default_missing_keys))%outcome
    else if negb (truthy ai_result) then Val (VDict default_no_json_string)
    else Val ai_result in
  match attempt with
  | Exc e => if is_json_decode_error e then Val (VDict default_malformed) else Exc e
  | Val r => Val r
  end.

(** Lines 206 and 211: the two keyword tests on the lower-cased verdict. *)
Definition says_false (verdict_lower : string) : bool :=
  (Str.contains "false" verdict_lower || Str.contains "debunked" verdict_lower
   || Str.contains "misinformation" verdict_lower)%bool.

Definition says_true (verdict_lower : string) : bool :=
  (Str.contains "true" verdict_lower || Str.contains "verified" verdict_lower
   || Str.contains "accurate" verdict_lower)%bool.

(** Lines 205-219: the verdict merged into [ai_result]. *)
Definition merge_verdict (ai_result : value) (fc : fact_check) : outcome value :=
  match fc_verdict fc with
  | VStr verdict =>
      let verdict_lower := Str.lower verdict in
      let display := VStr ("FACT-CHECKED: " ++ Str.upper verdict) in
      if says_false verdict_lower then
        (a1 <- py_setitem ai_result "classification" (VStr "fake") ;;
         score <- py_getitem a1 "credibilityScore" ;;
         clamped <- py_min score 20 ;;
         a2 <- py_setitem a1 "credibilityScore" clamped ;;
         old <- py_getitem a2 "explanation" ;;
         explanation <- py_concat ("External fact-check confirms this claim is "
                                   ++ verdict ++ ". ") old ;;
         a3 <- py_setitem a2 "explanation" explanation ;;
         py_setitem a3 "classificationDisplay" display)%outcome
      else if says_true verdict_lower then
        (a1 <- py_setitem ai_result "classification" (VStr "real") ;;
         score <- py_getitem a1 "credibilityScore" ;;
         clamped <- py_max score 80 ;;
         a2 <- py_setitem a1 "credibilityScore" clamped ;;
         old <- py_getitem a2 "explanation" ;;
         explanation <- py_concat ("External fact-check confirms this claim is "
                                   ++ verdict ++ ". ") old ;;
         a3 <- py_setitem a2 "explanation" explanation ;;
         py_setitem a3 "classificationDisplay" display)%outcome
      else
        (a1 <- py_setitem ai_result "classification" (VStr "uncertain") ;;
         old <- py_getitem a1 "explanation" ;;
         explanation <- py_concat ("External fact-check verdict: " ++ verdict ++ ". ") old ;;
         a2 <- py_setitem a1 "explanation" explanation ;;
         py_setitem a2 "classificationDisplay" display)%outcome
  | v => Exc (attribute_error v "lower")
  end.

(** Lines 200-204. *)
Definition fact_check_fields (fc : fact_check) : dict :=
  [("factCheckVerdict", fc_verdict fc);
   ("factCheckUrl", fc_url fc);
   ("factCheckPublisher", fc_publisher fc)].

(** Lines 196-223: [ai_result] and [fact_check_result] after step 2. *)
Definition verify (news_text ai_result : value) : io (value * option dict) :=
  (extracted_claim <- extract_claim_with_gemini news_text ;;
   match extracted_claim with
   | Some claim =>
       if negb (claim =? "")%string then
         fact_check_data <- query_fact_check_api claim ;;
         match fact_check_data with
         | Some fc =>
             merged <- io_lift (merge_verdict ai_result fc) ;;
             io_ret (merged, Some (fact_check_fields fc))
         | None => io_ret (ai_result, None)
         end
       else io_ret (ai_result, None)
   | None => io_ret (ai_result, None)
   end)%io.

(** Line 147: [gemini_response.text if hasattr(gemini_response, 'text') else ""]. *)
Definition text_of_response (gemini_response : option gen_response) : outcome string :=
  match gemini_response with
  | Some r =>
      match response_text r with
      | Val t => Val t
      | Exc e => if is_attribute_error e then Val "" else Exc e
      end
  | None => Val ""
  end.

(** Line 226: [{**ai_result, **(fact_check_result if fact_check_result else {})}]. *)
Definition final_result (ai_result : value) (fact_check_result : option dict) : outcome dict :=
  (base <- py_mapping ai_result ;;
   Val (dict_update base (match fact_check_result with Some f => f | None => [] end)))%outcome.

(** Lines 195-229: step 2 and the response, for the assessor's result
    [ai_result]. *)
Definition finish (news_text ai_result : value) : io http_reply :=
  (step2 <- verify news_text ai_result ;;
   final <- io_lift (final_result (fst step2) (snd step2)) ;;
   io_ret (jsonify final 200))%io.

(** Lines 110-229: the body of the [try]. *)
Definition pipeline (news_text news_url : value) : io http_reply :=
  (gemini_response <-
     call_model (AnalysisPrompt news_text
                   (if truthy news_url then news_url else VStr "Not provided")) ;;
   text <- io_lift (text_of_response gemini_response) ;;
   ai_result <- io_lift (assess text) ;;
   finish news_text ai_result)%io.

Definition CONTENT_REQUIRED : dict := [("error", VStr "News content is required.")].

Definition internal_error (e : exn) : dict :=
  [("error", VStr ("An internal server error occurred during AI analysis: " ++ exn_str e))].

(** The handler, applied to [request.json].  An exception it does not catch
    is the [Exc] of its outcome. *)
Definition analyze_news_endpoint (data : value) : io http_reply :=
  (news_text <- io_lift (py_get data "content" VNone) ;;
   news_url <- io_lift (py_get data "url" VNone) ;;
   if negb (truthy news_text) then io_ret (jsonify CONTENT_REQUIRED 400)
   else io_catch (pipeline news_text news_url)
          (fun e => io_ret (jsonify (internal_error e) 500)))%io.

End Handler.

(** ** The vocabulary of the statements *)

(** [news_url if news_url else 'Not provided'] for the body [d]. *)
Definition shown_url (d : dict) : value :=
  let news_url := match dict_get d "url" with Some x => x | None => VNone end in
  if truthy news_url then news_url else VStr "Not provided".

(** The handler rejects the body [data]: status 400, the fixed body, no
    outbound call. *)
Definition rejected (U : upstream) (data : value) : Prop :=
  analyze_news_endpoint U data =
    (Val (mk_http_reply 400 (VDict [("error", VStr "News content is required.")])), []).

(** The handler runs the pipeline on [content]: its first outbound call is
    the analysis call for [content], and it answers 200 or 500. *)
Definition analysed (U : upstream) (data content : value) : Prop :=
  exists shown_url r rest,
    analyze_news_endpoint U data =
      (Val r, CallModel (AnalysisPrompt content shown_url) :: rest)
    /\ (status r = 200 \/ status r = 500).

(** The text has no pair of braces: the first opening brace or the last
    closing brace is absent, or the last closing brace is not after the first
    opening brace. *)
Definition no_brace_pair (text : string) : Prop :=
  Str.find "{" text = -1 \/ Str.rfind "}" text = -1
  \/ Str.rfind "}" text <= Str.find "{" text.

(** The text has a first opening brace at [i] and a last closing brace at
    [j], after [i]. *)
Definition brace_pair (text : string) (i j : Z) : Prop :=
  Str.find "{" text = i /\ Str.rfind "}" text = j /\ i <> -1 /\ j > i.

(** What every default result has in common. *)
Definition is_default_with (d : dict) (explanation : string) : Prop :=
  dict_get d "credibilityScore" = Some (VInt 50)
  /\ dict_get d "classification" = Some (VStr "uncertain")
  /\ dict_get d "details" =
       Some (VDict [("sourceReliability", VInt 50); ("contentAnalysis", VInt 50);
                    ("factChecking", VInt 50); ("linguisticAnalysis", VInt 50)])
  /\ dict_get d "explanation" = Some (VStr explanation).




(** The registry gave a verdict that is not a text. *)
Definition verdict_not_text (U : upstream) : Prop :=
  exists claim fc,
    outcome_of (query_fact_check_api U claim) = Val (Some fc)
    /\ forall s, fc_verdict fc <> VStr s.

(** The registry is configured and answers the lookup of [claim] with the
    status 200 and a body that decodes to [data]. *)
Definition registry_answers (U : upstream) (claim : string) (data : value) : Prop :=
  GOOGLE_FACT_CHECK_API_KEY U <> ""
  /\ exists resp,
       requests_get U claim (GOOGLE_FACT_CHECK_API_KEY U) "en" = Val resp
       /\ raise_for_status resp = Val tt
       /\ response_json resp = Val data.

(** [rv.get('publisher', {}).get('name', 'Unknown')] for a review whose
    publisher is absent or an object. *)
Definition publisher_name (rv : dict) : value :=
  match dict_get rv "publisher" with
  | Some (VDict p) =>
      match dict_get p "name" with
      | Some name => name
      | None => VStr "Unknown"
      end
  | _ => VStr "Unknown"
  end.

(** [rv.get(k)]. *)
Definition get_or_none (rv : dict) (k : string) : value :=
  match dict_get rv k with
  | Some x => x
  | None => VNone
  end.



(** The body [d] has a truthy content, and the analysis call answers a text
    that the assessor turns into [ai_result]. *)
Definition assessed (U : upstream) (d : dict) (content ai_result : value) : Prop :=
  dict_get d "content" = Some content /\ truthy content = true
  /\ exists g text,
       generate_content U (AnalysisPrompt content (shown_url d)) = Val g
       /\ text_of_response g = Val text
       /\ assess U text = Val ai_result.

(** The claim extraction returns [claim], which is not empty, and the lookup
    of [claim] returns the result [fc]. *)
Definition fact_checked (U : upstream) (content : value) (claim : string)
    (fc : fact_check) : Prop :=
  outcome_of (extract_claim_with_gemini U content) = Val (Some claim)
  /\ claim <> ""
  /\ outcome_of (query_fact_check_api U claim) = Val (Some fc).

(** The value is not a number: [min] and [max] cannot compare it with an
    integer. *)
Definition not_a_number (v : value) : Prop :=
  match v with
  | VNone | VStr _ | VList _ | VDict _ => True
  | VBool _ | VInt _ | VFloat _ => False
  end.

(** The assessment of [content] fails with [e]: the analysis call raises
    [e], or [.text] of its answer raises [e], which is not an
    [AttributeError], or the decoder raises [e], which is not a
    [JSONDecodeError], on the slice between the braces. *)
Definition assessment_fails (U : upstream) (d : dict) (content : value) (e : exn) : Prop :=
  generate_content U (AnalysisPrompt content (shown_url d)) = Exc e
  \/ (exists r,
        generate_content U (AnalysisPrompt content (shown_url d)) = Val (Some r)
        /\ ((response_text r = Exc e /\ is_attribute_error e = false)
            \/ exists text i j,
                 response_text r = Val text /\ brace_pair text i j
                 /\ json_loads U (Str.slice text i (j + 1)) = Exc e
                 /\ is_json_decode_error e = false)).

(** ** A decoder and an upstream for the examples

    [Json.loads] decodes the JSON texts made of objects, arrays, texts without
    escapes, integers and the three literals, and raises [JSONDecodeError] on
    every other text.  It stands for [json.loads] in the examples below; the
    theorems hold for every decoder. *)

Module Json.

Definition decode_error : exn := mk_exn JSONDecodeError "Expecting value".

Definition is_ws (c : ascii) : bool :=
  let n := nat_of_ascii c in
  (Nat.eqb n 32 || Nat.eqb n 9 || Nat.eqb n 10 || Nat.eqb n 13)%bool.

Fixpoint skip_ws (s : string) : string :=
  match s with
  | String c s' => if is_ws c then skip_ws s' else s
  | EmptyString => s
  end.

Definition is_digit (c : ascii) : bool :=
  let n := nat_of_ascii c in (Nat.leb 48 n && Nat.leb n 57)%bool.

(** The digits at the head of [s], as a number, and the rest. *)
Fixpoint digits (s : string) (acc : Z) (seen : bool) : option (Z * string) :=
  match s with
  | String c s' =>
      if is_digit c then digits s' (10 * acc + Z.of_nat (nat_of_ascii c - 48)) true
      else if seen then Some (acc, s) else None
  | EmptyString => if seen then Some (acc, s) else None
  end.

(** The characters up to the closing quote; an escape or a control character
    is refused. *)
Fixpoint text_body (s : string) : option (string * string) :=
  match s with
  | String c s' =>
      if Nat.eqb (nat_of_ascii c) 34 then Some (EmptyString, s')
      else if (Nat.eqb (nat_of_ascii c) 92 || Nat.ltb (nat_of_ascii c) 32)%bool then None
      else match text_body s' with
           | Some (t, rest) => Some (String c t, rest)
           | None => None
           end
  | EmptyString => None
  end.

(** An integer; a leading zero, a fraction or an exponent is refused. *)
Definition number (s : string) : option (value * string) :=
  let '(neg, s1) :=
    match s with
    | String "-" s' => (true, s')
    | _ => (false, s)
    end in
  let leading_zero :=
    match s1 with
    | String "0" (String c _) => is_digit c
    | _ => false
    end in
  if leading_zero then None
  else
    match digits s1 0 false with
    | Some (n, String "." _) | Some (n, String "e" _) | Some (n, String "E" _) => None
    | Some (n, rest) => Some (VInt (if neg then - n else n), rest)
    | None => None
    end.

Definition literal (word : string) (v : value) (s : string) : option (value * string) :=
  if prefix word s
  then Some (v, substring (String.length word) (String.length s - String.length word) s)
  else None.

(** One value at the head of [s] and the rest of [s]. *)
Fixpoint parse (fuel : nat) (s : string) {struct fuel} : option (value * string) :=
  match fuel with
  | O => None
  | S fuel' =>
      let members :=
        fix members (n : nat) (acc : dict) (s : string) {struct n}
          : option (value * string) :=
          match n with
          | O => None
          | S n' =>
              match skip_ws s with
              | String c s1 =>
                  if Nat.eqb (nat_of_ascii c) 34 then
                    match text_body s1 with
                    | Some (k, s2) =>
                        match skip_ws s2 with
                        | String ":" s3 =>
                            match parse fuel' (skip_ws s3) with
                            | Some (v, s4) =>
                                match skip_ws s4 with
                                | String "," s5 => members n' (dict_set acc k v) s5
                                | String "}" s5 => Some (VDict (dict_set acc k v), s5)
                                | _ => None
                                end
                            | None => None
                            end
                        | _ => None
                        end
                    | None => None
                    end
                  else None
              | EmptyString => None
              end
          end in
      let elements :=
        fix elements (n : nat) (acc : list value) (s : string) {struct n}
          : option (value * string) :=
          match n with
          | O => None
          | S n' =>
              match parse fuel' (skip_ws s) with
              | Some (v, s1) =>
                  match skip_ws s1 with
                  | String "," s2 => elements n' (acc ++ [v])%list s2
                  | String "]" s2 => Some (VList (acc ++ [v])%list, s2)
                  | _ => None
                  end
              | None => None
              end
          end in
      match s with
      | String "{" s1 =>
          match skip_ws s1 with
          | String "}" s2 => Some (VDict [], s2)
          | _ => members (String.length s) [] s1
          end
      | String "[" s1 =>
          match skip_ws s1 with
          | String "]" s2 => Some (VList [], s2)
          | _ => elements (String.length s) [] s1
          end
      | String c s1 =>
          if Nat.eqb (nat_of_ascii c) 34 then
            match text_body s1 with
            | Some (t, rest) => Some (VStr t, rest)
            | None => None
            end
          else if prefix "true" s then literal "true" (VBool true) s
          else if prefix "false" s then literal "false" (VBool false) s
          else if prefix "null" s then literal "null" VNone s
          else number s
      | EmptyString => None
      end
  end.

Definition loads (s : string) : outcome value :=
  match parse (S (String.length s)) (skip_ws s) with
  | Some (v, rest) =>
      match skip_ws rest with
      | EmptyString => Val v
      | _ => Exc decode_error
      end
  | None => Exc decode_error
  end.

(** [int] refuses a numeral of more than 4300 digits with a [ValueError],
    which is not a [JSONDecodeError]: "a run of more than [limit] digits
    stands in [s]", [run] being the digits just read. *)
Fixpoint digit_run_exceeds (limit run : nat) (s : string) : bool :=
  match s with
  | EmptyString => false
  | String c s' =>
      if is_digit c
      then (if Nat.ltb limit (S run) then true else digit_run_exceeds limit (S run) s')
      else digit_run_exceeds limit 0 s'
  end.

Definition int_limit_error : exn :=
  mk_exn OtherException "Exceeds the limit (4300 digits) for integer string conversion".

(** [loads] with that limit on the integers: it stands for [json.loads] on a
    text whose only long run of digits is an integer. *)
Definition loads_with_int_limit (s : string) : outcome value :=
  if digit_run_exceeds 4300 0 s then Exc int_limit_error else loads s.

End Json.

Module Stub.

(** A text between double quotes. *)
Definition q (s : string) : string := Str.dq ++ s ++ Str.dq.

(** A response of the model with one candidate that has one part. *)
Definition reply (text : string) : gen_response :=
  mk_gen_response [mk_candidate (Some (mk_gen_content [mk_part text]))] (Val text).

(** A response of the registry with status 200 and the body [data]. *)
Definition registry_reply (data : value) : http_response :=
  mk_http_response (Val tt) (Val data).

(** An upstream with a registry key, whose model answers [analysis] to the
    analysis prompt and [claim] to the claim prompt, and whose registry
    answers [data]. *)
Definition upstream_of (analysis claim : string) (data : value) : upstream :=
  mk_upstream "registry-key"
    (fun p =>
       match p with
       | AnalysisPrompt _ _ => Val (Some (reply analysis))
       | ClaimPrompt _ => Val (Some (reply claim))
       end)
    (fun _ _ _ => Val (registry_reply data))
    Json.loads.

(** The four required fields of an analysis, with the score [score]:
    [credibilityScore], [classification] "real", [explanation]
    "Neutral tone." and empty [details]. *)
Definition analysis_fields (score : string) : string :=
  q "credibilityScore" ++ ": " ++ score ++ ", "
  ++ q "classification" ++ ": " ++ q "real" ++ ", "
  ++ q "explanation" ++ ": " ++ q "Neutral tone." ++ ", "
  ++ q "details" ++ ": {}".

(** The JSON object with these four fields. *)
Definition analysis_json (score : string) : string :=
  "{" ++ analysis_fields score ++ "}".

(** The same object with a field [factCheckVerdict] in front. *)
Definition analysis_json_with_verdict (score : string) : string :=
  "{" ++ q "factCheckVerdict" ++ ": " ++ q "True" ++ ", " ++ analysis_fields score ++ "}".

(** The body of the registry with one claim that has one review. *)
Definition registry_data (review : dict) : value :=
  VDict [("claims", VList [VDict [("claimReview", VList [VDict review])]])].

Definition request_body (content : string) : value :=
  VDict [("content", VStr content)].

(** [n] times the digit 9. *)
Fixpoint nines (n : nat) : string :=
  match n with
  | O => EmptyString
  | S n' => String "9" (nines n')
  end.

(** An object text whose score has 4301 digits, with a trailing comma. *)
Definition oversized_score_json : string :=
  "{" ++ q "credibilityScore" ++ ": " ++ nines 4301 ++ ",}".

(** An upstream whose model answers [oversized_score_json] and whose decoder
    has the limit on the integers. *)
Definition upstream_with_int_limit : upstream :=
  mk_upstream "registry-key"
    (fun _ => Val (Some (reply oversized_score_json)))
    (fun _ _ _ => Val (registry_reply VNone))
    Json.loads_with_int_limit.

End Stub.

(** ** Facts about text *)

Section TextFacts.

Variable c : ascii.

Lemma prefix_empty (s : string) : prefix "" s = true.
Proof. destruct s; reflexivity. Qed.

Lemma prefix_one_cons (a : ascii) (s : string) :
  prefix (String c EmptyString) (String a s) = if ascii_dec c a then true else false.
Proof.
  simpl. destruct (ascii_dec c a); [apply prefix_empty | reflexivity].
Qed.

Lemma append_assoc (a b d : string) : (a ++ b) ++ d = a ++ (b ++ d).
Proof. induction a as [|x a IH]; simpl; [reflexivity | now rewrite IH]. Qed.

Lemma length_append (a b : string) :
  String.length (a ++ b) = (String.length a + String.length b)%nat.
Proof. induction a as [|x a IH]; simpl; [reflexivity | now rewrite IH]. Qed.

Lemma find_from_spec (s : string) : forall i,
  (Str.find_from (String c EmptyString) s i = -1 /\ Str.contains (String c EmptyString) s = false) \/
  (exists pre rest, s = pre ++ String c rest /\
     Str.find_from (String c EmptyString) s i = i + Z.of_nat (String.length pre) /\
     Str.contains (String c EmptyString) pre = false).
Proof.
  induction s as [|a s IH]; intro i.
  - left. split; reflexivity.
  - cbn [Str.find_from Str.contains]. rewrite prefix_one_cons.
    destruct (ascii_dec c a) as [->|Hne].
    + right. exists "", s. repeat split. simpl. lia.
    + destruct (IH (i + 1)) as [[H1 H2]|(pre & rest & E & H1 & H2)].
      * left. split; assumption.
      * right. exists (String a pre), rest. subst s. repeat split.
        -- rewrite H1. cbn [String.length]. lia.
        -- cbn [Str.contains]. rewrite prefix_one_cons.
           destruct (ascii_dec c a); [contradiction | assumption].
Qed.

Lemma rfind_from_spec (s : string) : forall i, 0 <= i ->
  (Str.rfind_from (String c EmptyString) s i = -1 /\ Str.contains (String c EmptyString) s = false) \/
  (exists pre post, s = pre ++ String c post /\
     Str.rfind_from (String c EmptyString) s i = i + Z.of_nat (String.length pre) /\
     Str.contains (String c EmptyString) post = false).
Proof.
  induction s as [|a s IH]; intros i Hi.
  - left. split; reflexivity.
  - cbn [Str.rfind_from Str.contains]. rewrite prefix_one_cons.
    destruct (IH (i + 1) ltac:(lia)) as [[H1 H2]|(pre & post & E & H1 & H2)].
    + rewrite H1. cbn [Z.eqb]. destruct (ascii_dec c a) as [->|Hne].
      * right. exists "", s. repeat split; [simpl; lia | assumption].
      * left. split; [reflexivity | assumption].
    + right. exists (String a pre), post. subst s. repeat split; [|assumption].
      rewrite H1.
      destruct (i + 1 + Z.of_nat (String.length pre) =? -1) eqn:E; [lia|].
      cbn [String.length]. lia.
Qed.

End TextFacts.

Lemma append_split (a : string) : forall b x y : string,
  a ++ b = x ++ y -> (String.length a <= String.length x)%nat ->
  exists m, x = a ++ m /\ b = m ++ y.
Proof.
  induction a as [|h a IH]; intros b x y E L.
  - exists x. split; [reflexivity | exact E].
  - destruct x as [|h' x]; [simpl in L; lia|].
    simpl in E. injection E as -> E. simpl in L.
    destruct (IH b x y E ltac:(lia)) as (m & -> & ->).
    exists m. split; reflexivity.
Qed.

Lemma substring_skip (pre : string) : forall (n : nat) (s : string),
  substring (String.length pre) n (pre ++ s) = substring 0 n s.
Proof. induction pre as [|h pre IH]; intros n s; simpl; [reflexivity | apply IH]. Qed.

Lemma substring_take (a : string) : forall b : string,
  substring 0 (String.length a) (a ++ b) = a.
Proof.
  induction a as [|h a IH]; intro b; simpl.
  - destruct b; reflexivity.
  - now rewrite IH.
Qed.

(** What the two searches of [locate_json] find: the text is [pre], then an
    opening brace, [mid], a closing brace, then [post]; [pre] has no opening
    brace and [post] no closing (String c EmptyString); the slice is the part between the two
    braces, both included. *)
Lemma brace_slice (text : string) (i j : Z) :
  Str.find "{" text = i -> Str.rfind "}" text = j -> i <> -1 -> j > i ->
  exists pre mid post,
    text = pre ++ ("{" ++ mid ++ "}") ++ post /\
    Z.of_nat (String.length pre) = i /\
    Z.of_nat (String.length (pre ++ "{" ++ mid)) = j /\
    Str.contains "{" pre = false /\
    Str.contains "}" post = false /\
    Str.slice text i (j + 1) = "{" ++ mid ++ "}".
Proof.
  intros Hi Hj Hne Hlt. unfold Str.find in Hi. unfold Str.rfind in Hj.
  destruct (find_from_spec "{" text 0) as [[H _]|(pre & rest & E1 & F & P)]; [congruence|].
  destruct (rfind_from_spec "}" text 0 ltac:(lia)) as [[H _]|(pre2 & post & E2 & G & Q)]; [lia|].
  rewrite F in Hi. rewrite G in Hj.
  assert (L : (String.length pre <= String.length pre2)%nat) by lia.
  assert (E : pre ++ String "{" rest = pre2 ++ String "}" post) by congruence.
  destruct (append_split _ _ _ _ E L) as (m & -> & Em).
  rewrite length_append in Hj.
  destruct m as [|h mid]; [simpl in Hj; lia|].
  simpl in Em. injection Em as <- Em.
  exists pre, mid, post. subst rest.
  assert (T : text = pre ++ ("{" ++ mid ++ "}") ++ post).
  { rewrite E1. simpl. f_equal. f_equal. rewrite append_assoc. reflexivity. }
  repeat split; try assumption; try lia.
  - rewrite length_append. simpl. simpl in Hj. lia.
  - unfold Str.slice. rewrite T.
    replace (Z.to_nat i) with (String.length pre) by lia.
    rewrite substring_skip.
    replace (Z.to_nat (j + 1 - i)) with (String.length ("{" ++ mid ++ "}")).
    + apply substring_take.
    + simpl. rewrite length_append. simpl. simpl in Hj. lia.
Qed.

Lemma prefix_append (sub : string) : forall s,
  prefix sub s = true <-> exists post, s = sub ++ post.
Proof.
  induction sub as [|a sub IH]; intro s.
  - split; [intros _; exists s; reflexivity | intros _; apply prefix_empty].
  - destruct s as [|b s]; simpl.
    + split; [discriminate | intros [post E]; discriminate].
    + destruct (ascii_dec a b) as [->|N].
      * rewrite IH. split; intros [post E]; exists post; simpl in *; congruence.
      * split; [discriminate | intros [post E]; simpl in E; congruence].
Qed.

(** [Str.contains sub s] is the test that [sub] is a part of [s]. *)
Lemma contains_spec (sub s : string) :
  Str.contains sub s = true <-> exists pre post, s = pre ++ sub ++ post.
Proof.
  induction s as [|a s IH].
  - cbn [Str.contains]. destruct (prefix sub "") eqn:P.
    + split; [intros _ | reflexivity].
      apply prefix_append in P. destruct P as [post E]. exists "", post. exact E.
    + split; [discriminate|]. intros (pre & post & E).
      destruct pre; [|discriminate]. simpl in E.
      assert (prefix sub "" = true) by (apply prefix_append; now exists post). congruence.
  - cbn [Str.contains]. destruct (prefix sub (String a s)) eqn:P.
    + split; [intros _ | reflexivity].
      apply prefix_append in P. destruct P as [post E]. exists "", post. exact E.
    + rewrite IH. split.
      * intros (pre & post & ->). exists (String a pre), post. reflexivity.
      * intros (pre & post & E). destruct pre as [|b pre].
        -- simpl in E. assert (prefix sub (String a s) = true)
             by (apply prefix_append; now exists post). congruence.
        -- injection E as _ ->. now exists pre, post.
Qed.


(** ** Facts about dicts and numbers *)

Lemma dict_get_set_same (d : dict) (k : string) (v : value) :
  dict_get (dict_set d k v) k = Some v.
Proof.
  induction d as [|[k' v'] d IH]; simpl.
  - now rewrite String.eqb_refl.
  - destruct (k' =? k)%string eqn:E; simpl.
    + now rewrite String.eqb_refl.
    + now rewrite E.
Qed.

Lemma dict_get_set_other (d : dict) (k k0 : string) (v : value) :
  k <> k0 -> dict_get (dict_set d k v) k0 = dict_get d k0.
Proof.
  intro N. induction d as [|[k' v'] d IH]; simpl.
  - apply String.eqb_neq in N. now rewrite N.
  - destruct (k' =? k)%string eqn:E; simpl.
    + apply String.eqb_eq in E. subst k'. apply String.eqb_neq in N. now rewrite N.
    + destruct (k' =? k0)%string; [reflexivity | exact IH].
Qed.

(** Reads a key of a dict after some writes. *)
Ltac dict_simpl :=
  repeat (rewrite dict_get_set_same || rewrite dict_get_set_other by discriminate).

Lemma py_min_int (z n : Z) : py_min (VInt z) n = Val (VInt (Z.min z n)).
Proof.
  unfold py_min. cbn [py_int_lt obind]. destruct (n <? z) eqn:E.
  - apply Z.ltb_lt in E. now rewrite Z.min_r by lia.
  - apply Z.ltb_ge in E. now rewrite Z.min_l by lia.
Qed.

Lemma py_max_int (z n : Z) : py_max (VInt z) n = Val (VInt (Z.max z n)).
Proof.
  unfold py_max. cbn [py_int_gt obind]. destruct (n >? z) eqn:E.
  - apply Z.gtb_gt in E. now rewrite Z.max_r by lia.
  - rewrite Z.gtb_ltb in E. apply Z.ltb_ge in E. now rewrite Z.max_l by lia.
Qed.

Lemma py_all_in_dict (d : dict) (keys : list string) :
  py_all_in keys (VDict d) = Val (forallb (dict_has d) keys).
Proof.
  induction keys as [|k keys IH]; [reflexivity|].
  cbn [py_all_in py_in obind forallb]. destruct (dict_has d k); [exact IH | reflexivity].
Qed.

(** ** Facts about computations *)

Lemma io_bind_val {A B : Type} (m : io A) (f : A -> io B) (b : B) (t : list call) :
  io_bind m f = (Val b, t) ->
  exists a t1 t2, m = (Val a, t1) /\ f a = (Val b, t2) /\ t = (t1 ++ t2)%list.
Proof.
  unfold io_bind. destruct m as [[a|e] t1]; [|discriminate].
  destruct (f a) as [r t2] eqn:E. intro H. injection H as -> <-.
  exists a, t1, t2. repeat split. exact E.
Qed.

Lemma io_bind_calls {A B : Type} (m : io A) (f : A -> io B) :
  exists t, calls_of (io_bind m f) = (calls_of m ++ t)%list.
Proof.
  unfold io_bind, calls_of. destruct m as [[a|e] t1]; simpl.
  - destruct (f a) as [r t2]. exists t2. reflexivity.
  - exists []. now rewrite app_nil_r.
Qed.

Lemma io_catch_val {A : Type} (m : io A) (h : exn -> A) :
  exists a, io_catch m (fun e => io_ret (h e)) = (Val a, calls_of m)
            /\ (outcome_of m = Val a \/ exists e, outcome_of m = Exc e /\ a = h e).
Proof.
  unfold io_catch, calls_of, outcome_of, io_ret. destruct m as [[a|e] t]; simpl.
  - exists a. split; [reflexivity | now left].
  - exists (h e). rewrite app_nil_r. split; [reflexivity | right; now exists e].
Qed.

Lemma io_bind_of_val {A B : Type} (a : A) (t : list call) (f : A -> io B) :
  io_bind (Val a, t) f = (outcome_of (f a), (t ++ calls_of (f a))%list).
Proof. unfold io_bind, outcome_of, calls_of. destruct (f a); reflexivity. Qed.

Lemma io_bind_lift_val {A B : Type} (a : A) (f : A -> io B) :
  io_bind (io_lift (Val a)) f = f a.
Proof. unfold io_bind, io_lift. destruct (f a); reflexivity. Qed.

Lemma io_bind_lift_exc {A B : Type} (e : exn) (f : A -> io B) :
  io_bind (io_lift (Exc e)) f = (Exc e, []).
Proof. reflexivity. Qed.

Lemma io_bind_ret {A B : Type} (a : A) (f : A -> io B) :
  io_bind (io_ret a) f = f a.
Proof. apply io_bind_lift_val. Qed.

(** ** Facts about the merge *)

(** [d] after the first branch of the merge. *)
Lemma merge_false_branch (d : dict) (verdict : string) (url pub score lo : value)
    (old : string) :
  says_false (Str.lower verdict) = true ->
  dict_get d "credibilityScore" = Some score ->
  py_min score 20 = Val lo ->
  dict_get d "explanation" = Some (VStr old) ->
  merge_verdict (VDict d) (mk_fact_check (VStr verdict) url pub) =
    Val (VDict
      (dict_set
        (dict_set
          (dict_set (dict_set d "classification" (VStr "fake")) "credibilityScore" lo)
          "explanation"
          (VStr (("External fact-check confirms this claim is " ++ verdict ++ ". ") ++ old)))
        "classificationDisplay" (VStr ("FACT-CHECKED: " ++ Str.upper verdict)))).
Proof.
  intros F S M E. unfold merge_verdict. cbn [fc_verdict]. rewrite F.
  cbn [py_setitem py_getitem obind].
  rewrite dict_get_set_other, S by discriminate. cbn [obind]. rewrite M. cbn [obind].
  rewrite !dict_get_set_other, E by discriminate. reflexivity.
Qed.

Lemma merge_true_branch (d : dict) (verdict : string) (url pub score hi : value)
    (old : string) :
  says_false (Str.lower verdict) = false ->
  says_true (Str.lower verdict) = true ->
  dict_get d "credibilityScore" = Some score ->
  py_max score 80 = Val hi ->
  dict_get d "explanation" = Some (VStr old) ->
  merge_verdict (VDict d) (mk_fact_check (VStr verdict) url pub) =
    Val (VDict
      (dict_set
        (dict_set
          (dict_set (dict_set d "classification" (VStr "real")) "credibilityScore" hi)
          "explanation"
          (VStr (("External fact-check confirms this claim is " ++ verdict ++ ". ") ++ old)))
        "classificationDisplay" (VStr ("FACT-CHECKED: " ++ Str.upper verdict)))).
Proof.
  intros F T S M E. unfold merge_verdict. cbn [fc_verdict]. rewrite F, T.
  cbn [py_setitem py_getitem obind].
  rewrite dict_get_set_other, S by discriminate. cbn [obind]. rewrite M. cbn [obind].
  rewrite !dict_get_set_other, E by discriminate. reflexivity.
Qed.

Lemma merge_other_branch (d : dict) (verdict : string) (url pub : value) (old : string) :
  says_false (Str.lower verdict) = false ->
  says_true (Str.lower verdict) = false ->
  dict_get d "explanation" = Some (VStr old) ->
  merge_verdict (VDict d) (mk_fact_check (VStr verdict) url pub) =
    Val (VDict
      (dict_set
        (dict_set (dict_set d "classification" (VStr "uncertain"))
          "explanation" (VStr (("External fact-check verdict: " ++ verdict ++ ". ") ++ old)))
        "classificationDisplay" (VStr ("FACT-CHECKED: " ++ Str.upper verdict)))).
Proof.
  intros F T E. unfold merge_verdict. cbn [fc_verdict]. rewrite F, T.
  cbn [py_setitem py_getitem obind].
  rewrite !dict_get_set_other, E by discriminate. reflexivity.
Qed.

(** The merge of a text verdict into a result whose score is an integer and
    whose explanation is a text raises nothing. *)
Lemma merge_text_verdict (d : dict) (verdict : string) (url pub : value)
    (z : Z) (old : string) :
  dict_get d "credibilityScore" = Some (VInt z) ->
  dict_get d "explanation" = Some (VStr old) ->
  exists d', merge_verdict (VDict d) (mk_fact_check (VStr verdict) url pub) = Val (VDict d').
Proof.
  intros S E.
  destruct (says_false (Str.lower verdict)) eqn:F;
    [|destruct (says_true (Str.lower verdict)) eqn:T].
  - eexists. apply (merge_false_branch d verdict url pub (VInt z) _ old F S (py_min_int z 20) E).
  - eexists. apply (merge_true_branch d verdict url pub (VInt z) _ old F T S (py_max_int z 80) E).
  - eexists. apply (merge_other_branch d verdict url pub old F T E).
Qed.

(** ** Facts about the assessor *)

Lemma locate_json_none (text : string) :
  no_brace_pair text -> locate_json text = ("", VDict default_not_recognizable).
Proof.
  unfold no_brace_pair, locate_json. intro H.
  destruct (Str.find "{" text =? -1) eqn:A; [reflexivity|].
  destruct (Str.rfind "}" text =? -1) eqn:B; [reflexivity|].
  destruct (Str.rfind "}" text >? Str.find "{" text) eqn:C; [|reflexivity].
  apply Z.eqb_neq in A. apply Z.eqb_neq in B. apply Z.gtb_gt in C. lia.
Qed.

Lemma locate_json_pair (text : string) (i j : Z) :
  brace_pair text i j -> locate_json text = (Str.slice text i (j + 1), VDict []).
Proof.
  unfold brace_pair, locate_json. intros (Hi & Hj & N & L). subst i j.
  assert (B : Str.rfind "}" text <> -1).
  { destruct (find_from_spec "{" text 0) as [[H _]|(pre & rest & _ & F & _)];
      [unfold Str.find in N; congruence|].
    unfold Str.find in L. lia. }
  apply Z.eqb_neq in N. apply Z.eqb_neq in B. apply Z.gtb_gt in L.
  now rewrite N, B, L.
Qed.

Lemma slice_not_empty (text : string) (i j : Z) :
  brace_pair text i j -> (Str.slice text i (j + 1) =? "")%string = false.
Proof.
  intros (Hi & Hj & N & L).
  destruct (brace_slice text i j Hi Hj N L) as (pre & mid & post & _ & _ & _ & _ & _ & ->).
  reflexivity.
Qed.

(** The assessor on a text with a pair of braces: the decoder is applied to
    the slice. *)
Lemma assess_pair (U : upstream) (text : string) (i j : Z) :
  brace_pair text i j ->
  assess U text =
    match
      (parsed <- json_loads U (Str.slice text i (j + 1)) ;;
       complete <- py_all_in REQUIRED_KEYS parsed ;;
       if complete then Val parsed else Val (VDict default_missing_keys))%outcome
    with
    | Exc e => if is_json_decode_error e then Val (VDict default_malformed) else Exc e
    | Val r => Val r
    end.
Proof.
  intro P. unfold assess. rewrite (locate_json_pair text i j P).
  now rewrite (slice_not_empty text i j P).
Qed.

(** ** Facts about the helpers and the handler *)

(** The claim extraction makes one call and raises nothing. *)
Lemma extract_claim_total (U : upstream) (text : value) :
  exists c, extract_claim_with_gemini U text = (Val c, [CallModel (ClaimPrompt text)]).
Proof.
  unfold extract_claim_with_gemini, call_model, io_bind, io_catch, io_ret.
  destruct (generate_content U (ClaimPrompt text)) as [r|e]; simpl.
  - destruct (first_part_text r) as [t|]; simpl; eexists; reflexivity.
  - eexists; reflexivity.
Qed.

(** The registry lookup raises nothing. *)
Lemma query_fact_check_total (U : upstream) (claim : string) :
  exists r t, query_fact_check_api U claim = (Val r, t).
Proof.
  unfold query_fact_check_api, call_registry, io_bind, io_catch, io_ret, io_lift.
  destruct (GOOGLE_FACT_CHECK_API_KEY U =? "")%string; [eexists; eexists; reflexivity|].
  destruct (requests_get U claim (GOOGLE_FACT_CHECK_API_KEY U) "en") as [resp|e]; simpl;
    [|eexists; eexists; reflexivity].
  destruct (raise_for_status resp) as [[]|e]; simpl; [|eexists; eexists; reflexivity].
  destruct (response_json resp) as [data|e]; simpl; [|eexists; eexists; reflexivity].
  destruct (first_review data) as [r|e]; simpl; eexists; eexists; reflexivity.
Qed.

(** Step 2 either leaves [ai_result] as it is, or merges a result of the
    registry into it. *)
Lemma verify_cases (U : upstream) (news_text ai_result : value) :
  exists t,
    verify U news_text ai_result = (Val (ai_result, None), t)
    \/ exists claim fc,
         outcome_of (query_fact_check_api U claim) = Val (Some fc)
         /\ verify U news_text ai_result =
              (match merge_verdict ai_result fc with
               | Val merged => Val (merged, Some (fact_check_fields fc))
               | Exc e => Exc e
               end, t).
Proof.
  unfold verify.
  destruct (extract_claim_total U news_text) as [c X]. rewrite X.
  rewrite io_bind_of_val.
  destruct c as [claim|]; [destruct (negb (claim =? "")%string)|];
    try (eexists; left; reflexivity).
  destruct (query_fact_check_total U claim) as (r & t & Q). rewrite Q.
  rewrite io_bind_of_val.
  destruct r as [fc|]; [|eexists; left; reflexivity].
  exists ([CallModel (ClaimPrompt news_text)] ++ t)%list.
  right. exists claim, fc. split; [now rewrite Q|].
  destruct (merge_verdict ai_result fc) as [merged|e].
  - rewrite io_bind_lift_val. cbn. now rewrite app_nil_r.
  - rewrite io_bind_lift_exc. cbn. now rewrite app_nil_r.
Qed.

(** From step 2 on, a result whose score is an integer and whose explanation
    is a text is answered with 200, unless the registry gave a verdict that
    is not a text. *)
Lemma finish_status (U : upstream) (news_text : value) (d : dict) (z : Z) (old : string) :
  dict_get d "credibilityScore" = Some (VInt z) ->
  dict_get d "explanation" = Some (VStr old) ->
  (exists r, outcome_of (finish U news_text (VDict d)) = Val r /\ status r = 200)
  \/ ((exists e, outcome_of (finish U news_text (VDict d)) = Exc e) /\ verdict_not_text U).
Proof.
  intros S E. unfold finish.
  destruct (verify_cases U news_text (VDict d)) as [t [V|(claim & fc & Q & V)]]; rewrite V.
  - left. rewrite io_bind_of_val. eexists. split; reflexivity.
  - destruct fc as [v url pub].
    destruct v as [| | | |verdict| |];
      try (right; split;
           [eexists; reflexivity
           |exists claim; eexists; split; [exact Q | intros s; discriminate]]).
    destruct (merge_text_verdict d verdict url pub z old S E) as [d' M].
    left. rewrite M, io_bind_of_val. eexists. split; reflexivity.
Qed.

(** The first call of the pipeline is the analysis call. *)
Lemma pipeline_first_call (U : upstream) (news_text news_url : value) :
  exists rest,
    calls_of (pipeline U news_text news_url) =
      CallModel (AnalysisPrompt news_text
                   (if truthy news_url then news_url else VStr "Not provided")) :: rest.
Proof.
  unfold pipeline.
  destruct (io_bind_calls
              (call_model U (AnalysisPrompt news_text
                 (if truthy news_url then news_url else VStr "Not provided")))
              (fun gemini_response =>
                 (text <- io_lift (text_of_response gemini_response) ;;
                  ai_result <- io_lift (assess U text) ;;
                  finish U news_text ai_result)%io)) as [t E].
  exists t. exact E.
Qed.

(** The pipeline answers with the status 200 when it answers. *)
Lemma pipeline_status (U : upstream) (news_text news_url : value) (r : http_reply) :
  outcome_of (pipeline U news_text news_url) = Val r -> status r = 200.
Proof.
  unfold outcome_of. destruct (pipeline U news_text news_url) as [o t] eqn:E.
  simpl. intros ->. unfold pipeline, finish in E.
  repeat match type of E with
         | io_bind _ _ = (Val _, _) =>
             apply io_bind_val in E; destruct E as (? & ? & ? & _ & E & _)
         end.
  unfold io_ret in E. injection E as <- _. reflexivity.
Qed.

Lemma pipeline_finish (U : upstream) (news_text news_url : value)
    (g : option gen_response) (text : string) (ai_result : value) :
  generate_content U (AnalysisPrompt news_text
                        (if truthy news_url then news_url else VStr "Not provided")) = Val g ->
  text_of_response g = Val text ->
  assess U text = Val ai_result ->
  pipeline U news_text news_url =
    (outcome_of (finish U news_text ai_result),
     CallModel (AnalysisPrompt news_text
                  (if truthy news_url then news_url else VStr "Not provided"))
       :: calls_of (finish U news_text ai_result)).
Proof.
  intros G T A. unfold pipeline, call_model. rewrite G.
  rewrite io_bind_of_val. rewrite T, io_bind_lift_val, A, io_bind_lift_val.
  reflexivity.
Qed.

(** The handler on a body whose content is truthy, when the analysis call
    answers a text that the assessor turns into [ai_result]. *)
Lemma handler_assessed (U : upstream) (d : dict) (content : value)
    (g : option gen_response) (text : string) (ai_result : value) :
  dict_get d "content" = Some content -> truthy content = true ->
  generate_content U (AnalysisPrompt content (shown_url d)) = Val g ->
  text_of_response g = Val text ->
  assess U text = Val ai_result ->
  analyze_news_endpoint U (VDict d) =
    (match outcome_of (finish U content ai_result) with
     | Val r => Val r
     | Exc e => Val (jsonify (internal_error e) 500)
     end,
     CallModel (AnalysisPrompt content (shown_url d))
       :: calls_of (finish U content ai_result)).
Proof.
  intros C T G X A. unfold analyze_news_endpoint. cbn [py_get].
  rewrite !io_bind_lift_val, C, T. cbn [negb].
  rewrite (pipeline_finish U content _ g text ai_result G X A).
  unfold io_catch, io_ret.
  destruct (outcome_of (finish U content ai_result)); [reflexivity|].
  now rewrite app_nil_r.
Qed.

Lemma falsy_content_rejected (U : upstream) (d : dict) :
  truthy (match dict_get d "content" with Some x => x | None => VNone end) = false ->
  rejected U (VDict d).
Proof.
  intro H. unfold rejected, analyze_news_endpoint. cbn [py_get io_lift io_bind].
  rewrite H. reflexivity.
Qed.

Lemma truthy_content_analysed (U : upstream) (d : dict) (content : value) :
  dict_get d "content" = Some content -> truthy content = true ->
  analysed U (VDict d) content.
Proof.
  intros G H. unfold analysed, analyze_news_endpoint. cbn [py_get io_lift io_bind].
  rewrite G, H. cbn [negb].
  set (url := match dict_get d "url" with Some x => x | None => VNone end).
  destruct (io_catch_val (pipeline U content url) (fun e => jsonify (internal_error e) 500))
    as (r & E & S).
  destruct (pipeline_first_call U content url) as [rest C].
  exists (if truthy url then url else VStr "Not provided"), r, rest.
  destruct (io_catch (pipeline U content url) _) as [o t] eqn:K.
  injection E as -> ->. rewrite C. simpl. split; [reflexivity|].
  destruct S as [S|(e & _ & ->)]; [left; eapply pipeline_status; eauto | right; reflexivity].
Qed.

(** ** The model on examples *)

Example truthy_negative_zero : truthy (VFloat PrimFloat.neg_zero) = false.
Proof. reflexivity. Qed.

Example truthy_nan : truthy (VFloat PrimFloat.nan) = true.
Proof. reflexivity. Qed.

Example float_of_Z_20 : float_of_Z 20 = 20%float.
Proof. reflexivity. Qed.

Example py_min_examples :
  py_min (VInt 70) 20 = Val (VInt 20) /\
  py_min (VInt 5) 20 = Val (VInt 5) /\
  py_min (VFloat 20.5%float) 20 = Val (VInt 20) /\
  py_min (VFloat 3.5%float) 20 = Val (VFloat 3.5%float) /\
  py_min (VBool true) 20 = Val (VBool true) /\
  py_max (VInt 70) 80 = Val (VInt 80) /\
  py_max (VFloat 99.5%float) 80 = Val (VFloat 99.5%float).
Proof. repeat split; reflexivity. Qed.

(** The model's object inside prose and a fence, a claim, and a review rated
    "False" by a named publisher. *)
Example handler_on_false_verdict :
  analyze_news_endpoint
    (Stub.upstream_of ("Sure! ```json " ++ Stub.analysis_json "70" ++ " ```")
       "The moon is made of cheese."
       (Stub.registry_data [("textualRating", VStr "False");
                            ("url", VStr "http://example.org/check");
                            ("publisher", VDict [("name", VStr "Snopes")])]))
    (Stub.request_body "The moon is made of cheese.")
  = (Val (mk_http_reply 200
            (VDict [("credibilityScore", VInt 20);
                    ("classification", VStr "fake");
                    ("explanation",
                     VStr "External fact-check confirms this claim is False. Neutral tone.");
                    ("details", VDict []);
                    ("classificationDisplay", VStr "FACT-CHECKED: FALSE");
                    ("factCheckVerdict", VStr "False");
                    ("factCheckUrl", VStr "http://example.org/check");
                    ("factCheckPublisher", VStr "Snopes")])),
     [CallModel (AnalysisPrompt (VStr "The moon is made of cheese.") (VStr "Not provided"));
      CallModel (ClaimPrompt (VStr "The moon is made of cheese."));
      CallRegistry "The moon is made of cheese." "registry-key" "en"]).
Proof. vm_compute. reflexivity. Qed.

(** A review rated "Mostly True" without a publisher, for a request with a
    URL. *)
Example handler_on_mostly_true_verdict :
  analyze_news_endpoint
    (Stub.upstream_of (Stub.analysis_json "70") "Water is wet."
       (Stub.registry_data [("textualRating", VStr "Mostly True");
                            ("url", VStr "http://example.org/check")]))
    (VDict [("content", VStr "Water is wet."); ("url", VStr "http://example.org/a")])
  = (Val (mk_http_reply 200
            (VDict [("credibilityScore", VInt 80);
                    ("classification", VStr "real");
                    ("explanation",
                     VStr "External fact-check confirms this claim is Mostly True. Neutral tone.");
                    ("details", VDict []);
                    ("classificationDisplay", VStr "FACT-CHECKED: MOSTLY TRUE");
                    ("factCheckVerdict", VStr "Mostly True");
                    ("factCheckUrl", VStr "http://example.org/check");
                    ("factCheckPublisher", VStr "Unknown")])),
     [CallModel (AnalysisPrompt (VStr "Water is wet.") (VStr "http://example.org/a"));
      CallModel (ClaimPrompt (VStr "Water is wet."));
      CallRegistry "Water is wet." "registry-key" "en"]).
Proof. vm_compute. reflexivity. Qed.

(** A registry body without claims: the assessor's result is the response. *)
Example handler_without_review :
  analyze_news_endpoint
    (Stub.upstream_of (Stub.analysis_json "70") "Water is wet." (VDict [("claims", VList [])]))
    (Stub.request_body "Water is wet.")
  = (Val (mk_http_reply 200
            (VDict [("credibilityScore", VInt 70); ("classification", VStr "real");
                    ("explanation", VStr "Neutral tone."); ("details", VDict [])])),
     [CallModel (AnalysisPrompt (VStr "Water is wet.") (VStr "Not provided"));
      CallModel (ClaimPrompt (VStr "Water is wet."));
      CallRegistry "Water is wet." "registry-key" "en"]).
Proof. vm_compute. reflexivity. Qed.

(** A call of the model that raises is answered with 500. *)
Example handler_on_model_failure :
  analyze_news_endpoint
    (mk_upstream "registry-key"
       (fun _ => Exc (mk_exn OtherException "API key not valid."))
       (fun _ _ _ => Val (Stub.registry_reply VNone))
       Json.loads)
    (Stub.request_body "Water is wet.")
  = (Val (mk_http_reply 500
            (VDict [("error",
                     VStr "An internal server error occurred during AI analysis: API key not valid.")])),
     [CallModel (AnalysisPrompt (VStr "Water is wet.") (VStr "Not provided"))]).
Proof. vm_compute. reflexivity. Qed.

(** ** The claims *)

(** C1: a body whose [content] is missing or is the empty text is answered
    with the status 400 and the body [{"error": "News content is required."}],
    and no outbound call is made: neither the model nor the registry is
    called. *)
Theorem missing_or_empty_content_is_400 (U : upstream) (d : dict) :
  dict_get d "content" = None \/ dict_get d "content" = Some (VStr "") ->
  analyze_news_endpoint U (VDict d) =
    (Val (mk_http_reply 400 (VDict [("error", VStr "News content is required.")])), [])
  /\ calls_of (analyze_news_endpoint U (VDict d)) = [].
Proof.
  intro H.
  assert (R : rejected U (VDict d)).
  { apply falsy_content_rejected. destruct H as [-> | ->]; reflexivity. }
  unfold rejected in R. rewrite R. split; reflexivity.
Qed.

Lemma missing_or_empty_content_is_400_witness :
  analyze_news_endpoint (Stub.upstream_of "{}" "A claim." VNone)
    (VDict [("url", VStr "http://example.org/a"); ("content", VStr "")]) =
    (Val (mk_http_reply 400 (VDict [("error", VStr "News content is required.")])), [])
  /\ calls_of (analyze_news_endpoint (Stub.upstream_of "{}" "A claim." VNone)
       (VDict [("url", VStr "http://example.org/a"); ("content", VStr "")])) = [].
Proof.
  apply (missing_or_empty_content_is_400 (Stub.upstream_of "{}" "A claim." VNone)
           [("url", VStr "http://example.org/a"); ("content", VStr "")]).
  right. reflexivity.
Defined.





(** C4, as the code has it: on a text without a pair of braces the assessor
    returns the default result (score 50, "uncertain", the four sub-scores
    50) with the explanation "AI content analysis failed: Could not parse
    Gemini's response (not valid JSON or incomplete).", which differs from
    the explanations of the two other failures. *)
Theorem no_brace_pair_gives_default (U : upstream) (text : string) :
  no_brace_pair text ->
  assess U text = Val (VDict default_not_recognizable)
  /\ is_default_with default_not_recognizable
       "AI content analysis failed: Could not parse Gemini's response (not valid JSON or incomplete)."
  /\ dict_get default_not_recognizable "explanation"
     <> dict_get default_missing_keys "explanation"
  /\ dict_get default_not_recognizable "explanation"
     <> dict_get default_malformed "explanation"
  /\ dict_get default_missing_keys "explanation"
     <> dict_get default_malformed "explanation".
Proof.
  intro H. split.
  - unfold assess. rewrite (locate_json_none text H). reflexivity.
  - repeat split; discriminate.
Qed.

Lemma no_brace_pair_gives_default_witness :
  assess (Stub.upstream_of "} I cannot analyse this. {" "A claim." VNone)
    "} I cannot analyse this. {" = Val (VDict default_not_recognizable).
Proof.
  apply (no_brace_pair_gives_default
           (Stub.upstream_of "} I cannot analyse this. {" "A claim." VNone)
           "} I cannot analyse this. {").
  right. right. vm_compute. discriminate.
Defined.

(** C4 as the spec states it fails: the text "I cannot analyse this." has no
    brace, and the explanation of the assessor's result is not the message
    "No JSON string found". *)
Lemma no_brace_pair_message_is_not_no_json_string :
  no_brace_pair "I cannot analyse this."
  /\ ~ (exists d,
          assess (Stub.upstream_of "I cannot analyse this." "A claim." VNone)
            "I cannot analyse this." = Val (VDict d)
          /\ dict_get d "explanation" =
               Some (VStr "AI content analysis failed: No JSON string found in Gemini's response.")).
Proof.
  split.
  - left. reflexivity.
  - intros (d & A & E). vm_compute in A. injection A as <-. discriminate.
Qed.

(** C5: when the slice between the braces decodes to an object that lacks
    one of the four required keys, the assessor's result is the default
    result (score 50, "uncertain", the four sub-scores 50) with the
    explanation "AI content analysis returned an unexpected structure
    (missing keys)."; nothing of the decoded object is kept. *)
Theorem missing_keys_give_default (U : upstream) (text : string) (i j : Z) (d : dict) :
  brace_pair text i j ->
  json_loads U (Str.slice text i (j + 1)) = Val (VDict d) ->
  (exists k, In k ["credibilityScore"; "classification"; "explanation"; "details"]
             /\ dict_get d k = None) ->
  assess U text = Val (VDict default_missing_keys)
  /\ is_default_with default_missing_keys
       "AI content analysis returned an unexpected structure (missing keys).".
Proof.
  intros P L (k & I & G). split; [|repeat split].
  rewrite (assess_pair U text i j P), L. cbn [obind]. rewrite py_all_in_dict.
  assert (F : forallb (dict_has d) REQUIRED_KEYS = false).
  { apply not_true_is_false. intro T. rewrite forallb_forall in T.
    specialize (T k I). unfold dict_has in T. now rewrite G in T. }
  now rewrite F.
Qed.

Lemma missing_keys_give_default_witness :
  assess (Stub.upstream_of "Here it is: {} Done." "A claim." VNone) "Here it is: {} Done."
  = Val (VDict default_missing_keys).
Proof.
  apply (missing_keys_give_default
           (Stub.upstream_of "Here it is: {} Done." "A claim." VNone)
           "Here it is: {} Done." 12 13 []).
  - split; [reflexivity | split; [reflexivity | split; [discriminate | reflexivity]]].
  - reflexivity.
  - exists "classification". split; [simpl; tauto | reflexivity].
Defined.

(** C6, as the code has it: when the slice between the braces is refused by
    the decoder with a [JSONDecodeError], the assessor's result is the default result (score 50,
    "uncertain", the four sub-scores 50) with the explanation "AI content
    analysis returned malformed JSON.", and the request goes on to step 2: it
    is answered with 200, and with 500 only when the registry gave a verdict
    that is not a text. *)
Theorem malformed_json_gives_default (U : upstream) (text : string) (i j : Z) (e : exn) :
  brace_pair text i j ->
  json_loads U (Str.slice text i (j + 1)) = Exc e ->
  is_json_decode_error e = true ->
  assess U text = Val (VDict default_malformed)
  /\ is_default_with default_malformed "AI content analysis returned malformed JSON."
  /\ (forall (d : dict) (content : value) (g : option gen_response),
        dict_get d "content" = Some content -> truthy content = true ->
        generate_content U (AnalysisPrompt content (shown_url d)) = Val g ->
        text_of_response g = Val text ->
        exists r calls,
          analyze_news_endpoint U (VDict d) = (Val r, calls)
          /\ (status r = 200 \/ (status r = 500 /\ verdict_not_text U))).
Proof.
  intros P L J.
  assert (A : assess U text = Val (VDict default_malformed)).
  { rewrite (assess_pair U text i j P), L. cbn [obind]. now rewrite J. }
  split; [exact A|]. split; [repeat split|].
  intros d content g C T G X.
  rewrite (handler_assessed U d content g text _ C T G X A).
  destruct (finish_status U content default_malformed 50
              "AI content analysis returned malformed JSON." eq_refl eq_refl)
    as [(r & R & S)|((x & R) & N)]; rewrite R.
  - exists r. eexists. split; [reflexivity | now left].
  - eexists. eexists. split; [reflexivity | right; split; [reflexivity | exact N]].
Qed.

Lemma malformed_json_gives_default_witness :
  assess
    (Stub.upstream_of ("```json {" ++ Stub.q "credibilityScore" ++ ": 70,} ```")
       "A claim." VNone)
    ("```json {" ++ Stub.q "credibilityScore" ++ ": 70,} ```")
  = Val (VDict default_malformed).
Proof.
  apply (malformed_json_gives_default
           (Stub.upstream_of ("```json {" ++ Stub.q "credibilityScore" ++ ": 70,} ```")
              "A claim." VNone)
           ("```json {" ++ Stub.q "credibilityScore" ++ ": 70,} ```")
           8 32 Json.decode_error).
  - split; [reflexivity | split; [reflexivity | split; [discriminate | reflexivity]]].
  - reflexivity.
  - reflexivity.
Defined.

(** C6 as the spec states it fails: the model answers an object text with a
    trailing comma whose score has 4301 digits.  The slice between the braces
    is the whole text and does not parse, but the decoder raises the
    [ValueError] of the limit on integers, not a [JSONDecodeError]: the
    assessor raises it, and the reply is 500 after the one analysis call. *)
Lemma oversized_integer_is_500 :
  brace_pair Stub.oversized_score_json 0 4323
  /\ json_loads Stub.upstream_with_int_limit (Str.slice Stub.oversized_score_json 0 4324)
     = Exc Json.int_limit_error
  /\ is_json_decode_error Json.int_limit_error = false
  /\ assess Stub.upstream_with_int_limit Stub.oversized_score_json
     = Exc Json.int_limit_error
  /\ analyze_news_endpoint Stub.upstream_with_int_limit (Stub.request_body "Water is wet.")
     = (Val (mk_http_reply 500
               (VDict [("error",
                        VStr "An internal server error occurred during AI analysis: Exceeds the limit (4300 digits) for integer string conversion")])),
        [CallModel (AnalysisPrompt (VStr "Water is wet.") (VStr "Not provided"))]).
Proof.
  split; [|split; [|split; [|split]]].
  - split; [vm_compute; reflexivity|].
    split; [vm_compute; reflexivity | split; [discriminate | reflexivity]].
  - vm_compute. reflexivity.
  - reflexivity.
  - vm_compute. reflexivity.
  - vm_compute. reflexivity.
Qed.

(** C7: with the first opening brace at [i] and the last closing brace at
    [j > i], the candidate is the slice from [i] to [j], both included: the
    text is [pre ++ candidate ++ post], [pre] has [i] characters and no
    opening brace, [post] has no closing brace, and the candidate starts with
    the opening brace and ends with the closing one.  When the candidate
    decodes to an object with the four required keys, that object is the
    assessor's result, unchanged. *)
Theorem candidate_is_slice_and_kept (U : upstream) (text : string) (i j : Z) :
  brace_pair text i j ->
  fst (locate_json text) = Str.slice text i (j + 1)
  /\ (exists pre mid post,
        text = pre ++ Str.slice text i (j + 1) ++ post
        /\ Str.slice text i (j + 1) = "{" ++ mid ++ "}"
        /\ Z.of_nat (String.length pre) = i
        /\ Z.of_nat (String.length (Str.slice text i (j + 1))) = j - i + 1
        /\ Str.contains "{" pre = false
        /\ Str.contains "}" post = false)
  /\ (forall d,
        json_loads U (Str.slice text i (j + 1)) = Val (VDict d) ->
        (forall k, In k ["credibilityScore"; "classification"; "explanation"; "details"] ->
                   dict_get d k <> None) ->
        assess U text = Val (VDict d)).
Proof.
  intro P. split; [|split].
  - now rewrite (locate_json_pair text i j P).
  - destruct P as (Hi & Hj & N & L).
    destruct (brace_slice text i j Hi Hj N L)
      as (pre & mid & post & T & A & B & C & D & E).
    exists pre, mid, post. rewrite E. repeat split; try assumption.
    rewrite length_append in B. cbn [String.length append] in *.
    rewrite length_append. cbn [String.length]. lia.
  - intros d L K. rewrite (assess_pair U text i j P), L. cbn [obind].
    rewrite py_all_in_dict.
    assert (F : forallb (dict_has d) REQUIRED_KEYS = true).
    { apply forallb_forall. intros k I. specialize (K k I). unfold dict_has.
      destruct (dict_get d k); [reflexivity | contradiction]. }
    now rewrite F.
Qed.

Lemma candidate_is_slice_and_kept_witness :
  assess (Stub.upstream_of ("Sure! ```json " ++ Stub.analysis_json "70" ++ " ```")
            "A claim." VNone)
    ("Sure! ```json " ++ Stub.analysis_json "70" ++ " ```") =
    Val (VDict [("credibilityScore", VInt 70); ("classification", VStr "real");
                ("explanation", VStr "Neutral tone."); ("details", VDict [])]).
Proof.
  assert (P : brace_pair ("Sure! ```json " ++ Stub.analysis_json "70" ++ " ```") 14 110)
    by (split; [reflexivity | split; [reflexivity | split; [discriminate | reflexivity]]]).
  apply (proj2 (proj2 (candidate_is_slice_and_kept
           (Stub.upstream_of ("Sure! ```json " ++ Stub.analysis_json "70" ++ " ```")
              "A claim." VNone)
           ("Sure! ```json " ++ Stub.analysis_json "70" ++ " ```") 14 110 P))).
  - reflexivity.
  - intros k [<-|[<-|[<-|[<-|[]]]]]; discriminate.
Defined.

(** C8 fails on the code: the registry answers one claim with one review
    that has no [textualRating]; the lookup returns a result whose verdict is
    [None], and the request is answered with 500. *)
Theorem review_without_rating_is_500 :
  let U := Stub.upstream_of (Stub.analysis_json "70") "The moon is made of cheese."
             (Stub.registry_data [("url", VStr "http://example.org/check")]) in
  outcome_of (query_fact_check_api U "The moon is made of cheese.")
  = Val (Some (mk_fact_check VNone (VStr "http://example.org/check") (VStr "Unknown")))
  /\ analyze_news_endpoint U (Stub.request_body "The moon is made of cheese.")
     = (Val (mk_http_reply 500
               (VDict [("error",
                        VStr "An internal server error occurred during AI analysis: 'NoneType' object has no attribute 'lower'")])),
        [CallModel (AnalysisPrompt (VStr "The moon is made of cheese.") (VStr "Not provided"));
         CallModel (ClaimPrompt (VStr "The moon is made of cheese."));
         CallRegistry "The moon is made of cheese." "registry-key" "en"]).
Proof. split; vm_compute; reflexivity. Qed.

(** C9, as the code has it: when the claim extraction answers the sentinel
    (after [strip]), the extraction returns no claim, the registry is not
    called, and the response is 200 with the assessor's result as its body,
    unchanged: every field is kept and none is added. *)
Theorem sentinel_claim_skips_registry (U : upstream) (d ai_result : dict) (content : value)
    (g r : option gen_response) (text answer : string) :
  dict_get d "content" = Some content -> truthy content = true ->
  generate_content U (AnalysisPrompt content (shown_url d)) = Val g ->
  text_of_response g = Val text ->
  assess U text = Val (VDict ai_result) ->
  generate_content U (ClaimPrompt content) = Val r ->
  first_part_text r = Some answer ->
  Str.strip answer = "No specific claim identified" ->
  extract_claim_with_gemini U content = (Val None, [CallModel (ClaimPrompt content)])
  /\ analyze_news_endpoint U (VDict d) =
       (Val (mk_http_reply 200 (VDict ai_result)),
        [CallModel (AnalysisPrompt content (shown_url d)); CallModel (ClaimPrompt content)])
  /\ (forall query key language,
        ~ In (CallRegistry query key language) (calls_of (analyze_news_endpoint U (VDict d))))
  /\ (exists resp b,
        outcome_of (analyze_news_endpoint U (VDict d)) = Val resp
        /\ status resp = 200 /\ body resp = VDict b
        /\ forall k, dict_get b k = dict_get ai_result k).
Proof.
  intros C T G X A G2 F S.
  assert (E : extract_claim_with_gemini U content
              = (Val None, [CallModel (ClaimPrompt content)])).
  { unfold extract_claim_with_gemini, call_model. rewrite G2, io_bind_of_val, F, S.
    reflexivity. }
  assert (H : analyze_news_endpoint U (VDict d) =
       (Val (mk_http_reply 200 (VDict ai_result)),
        [CallModel (AnalysisPrompt content (shown_url d)); CallModel (ClaimPrompt content)])).
  { rewrite (handler_assessed U d content g text _ C T G X A).
    unfold finish, verify. rewrite E, io_bind_of_val. reflexivity. }
  split; [exact E|]. split; [exact H|]. split.
  - intros query key language I. rewrite H in I. simpl in I.
    destruct I as [I|[I|[]]]; discriminate.
  - rewrite H. eexists. exists ai_result. repeat split.
Qed.

Lemma sentinel_claim_skips_registry_witness :
  analyze_news_endpoint
    (Stub.upstream_of (Stub.analysis_json "70") "  No specific claim identified " VNone)
    (Stub.request_body "Water is wet.") =
    (Val (mk_http_reply 200
            (VDict [("credibilityScore", VInt 70); ("classification", VStr "real");
                    ("explanation", VStr "Neutral tone."); ("details", VDict [])])),
     [CallModel (AnalysisPrompt (VStr "Water is wet.") (VStr "Not provided"));
      CallModel (ClaimPrompt (VStr "Water is wet."))]).
Proof.
  apply (sentinel_claim_skips_registry
           (Stub.upstream_of (Stub.analysis_json "70") "  No specific claim identified " VNone)
           [("content", VStr "Water is wet.")]
           [("credibilityScore", VInt 70); ("classification", VStr "real");
            ("explanation", VStr "Neutral tone."); ("details", VDict [])]
           (VStr "Water is wet.")
           (Some (Stub.reply (Stub.analysis_json "70")))
           (Some (Stub.reply "  No specific claim identified "))
           (Stub.analysis_json "70") "  No specific claim identified ");
    reflexivity.
Defined.

(** C9 as the spec states it fails: the model answers an object that has the
    four required keys and a key [factCheckVerdict], and the sentinel to the
    claim prompt; the extraction returns no claim, the response is 200, and
    its body has the field [factCheckVerdict]. *)
Lemma sentinel_response_with_fact_check_field :
  let U := Stub.upstream_of (Stub.analysis_json_with_verdict "70")
             "No specific claim identified" VNone in
  extract_claim_with_gemini U (VStr "Water is wet.")
  = (Val None, [CallModel (ClaimPrompt (VStr "Water is wet."))])
  /\ exists b,
       analyze_news_endpoint U (Stub.request_body "Water is wet.") =
         (Val (mk_http_reply 200 (VDict b)),
          [CallModel (AnalysisPrompt (VStr "Water is wet.") (VStr "Not provided"));
           CallModel (ClaimPrompt (VStr "Water is wet."))])
       /\ dict_get b "factCheckVerdict" = Some (VStr "True").
Proof.
  split; [reflexivity|]. eexists. split; [vm_compute; reflexivity | reflexivity].
Qed.

(** C10: the test on [content] is its truth value.  A [content] that is
    present and falsy (the empty text, 0, false, null) is rejected with 400;
    a text made of white space only, and every truthy value that is not a
    text, is accepted: the pipeline runs on it. *)
Theorem content_test_is_truthiness (U : upstream) (d : dict) (content : value) :
  dict_get d "content" = Some content ->
  (In content [VStr ""; VInt 0; VBool false; VNone] -> rejected U (VDict d))
  /\ (forall s, content = VStr s -> s <> "" -> Str.strip s = "" ->
      analysed U (VDict d) content)
  /\ ((forall s, content <> VStr s) -> truthy content = true ->
      analysed U (VDict d) content)
  /\ (truthy content = false <-> rejected U (VDict d)).
Proof.
  intro G. repeat split.
  - intro H. apply falsy_content_rejected. rewrite G.
    simpl in H. destruct H as [<-|[<-|[<-|[<-|[]]]]]; reflexivity.
  - intros s -> N _. apply truthy_content_analysed; [assumption|].
    simpl. destruct s; [contradiction | reflexivity].
  - intros _ T. now apply truthy_content_analysed.
  - intro T. apply falsy_content_rejected. now rewrite G.
  - intro R. destruct (truthy content) eqn:T; [|reflexivity].
    destruct (truthy_content_analysed U d content G T) as (u & r & rest & E & _).
    unfold rejected in R. rewrite R in E. discriminate.
Qed.

Lemma content_test_is_truthiness_witness :
  (In (VStr "   ") [VStr ""; VInt 0; VBool false; VNone] ->
   rejected (Stub.upstream_of "{}" "A claim." VNone) (VDict [("content", VStr "   ")]))
  /\ (forall s, VStr "   " = VStr s -> s <> "" -> Str.strip s = "" ->
      analysed (Stub.upstream_of "{}" "A claim." VNone) (VDict [("content", VStr "   ")])
        (VStr "   "))
  /\ ((forall s, VStr "   " <> VStr s) -> truthy (VStr "   ") = true ->
      analysed (Stub.upstream_of "{}" "A claim." VNone) (VDict [("content", VStr "   ")])
        (VStr "   "))
  /\ (truthy (VStr "   ") = false <->
      rejected (Stub.upstream_of "{}" "A claim." VNone) (VDict [("content", VStr "   ")])).
Proof.
  apply (content_test_is_truthiness (Stub.upstream_of "{}" "A claim." VNone)
           [("content", VStr "   ")] (VStr "   ")).
  reflexivity.
Defined.

(** ** Further facts *)

(** The handler on a body that is an object. *)
Lemma handler_on_object (U : upstream) (d : dict) :
  analyze_news_endpoint U (VDict d) =
    if truthy (match dict_get d "content" with Some x => x | None => VNone end)
    then io_catch
           (pipeline U (match dict_get d "content" with Some x => x | None => VNone end)
              (match dict_get d "url" with Some x => x | None => VNone end))
           (fun e => io_ret (jsonify (internal_error e) 500))
    else (Val (jsonify CONTENT_REQUIRED 400), []).
Proof.
  unfold analyze_news_endpoint. cbn [py_get]. rewrite !io_bind_lift_val.
  destruct (truthy _); reflexivity.
Qed.

(** The lookup returns a value; it calls the registry once when a key is
    configured and not at all otherwise. *)
Lemma query_shape (U : upstream) (claim : string) :
  (GOOGLE_FACT_CHECK_API_KEY U = "" /\ query_fact_check_api U claim = (Val None, []))
  \/ (GOOGLE_FACT_CHECK_API_KEY U <> ""
      /\ exists r, query_fact_check_api U claim =
                     (Val r, [CallRegistry claim (GOOGLE_FACT_CHECK_API_KEY U) "en"])).
Proof.
  unfold query_fact_check_api, call_registry.
  destruct (GOOGLE_FACT_CHECK_API_KEY U =? "")%string eqn:K.
  - left. apply String.eqb_eq in K. split; [exact K | reflexivity].
  - right. apply String.eqb_neq in K. split; [exact K|].
    unfold io_catch, io_ret.
    destruct (requests_get U claim (GOOGLE_FACT_CHECK_API_KEY U) "en") as [resp|e];
      [|eexists; reflexivity].
    rewrite io_bind_of_val.
    destruct (raise_for_status resp) as [[]|e];
      [rewrite io_bind_lift_val | rewrite io_bind_lift_exc; eexists; reflexivity].
    destruct (response_json resp) as [data|e];
      [rewrite io_bind_lift_val | rewrite io_bind_lift_exc; eexists; reflexivity].
    unfold io_lift, outcome_of, calls_of. cbn [fst snd].
    destruct (first_review data) as [r|e]; eexists; reflexivity.
Qed.

(** Step 2 when the extraction returns no claim or an empty one. *)
Lemma verify_without_claim (U : upstream) (news_text ai_result : value) (c : option string) :
  outcome_of (extract_claim_with_gemini U news_text) = Val c ->
  c = None \/ c = Some "" ->
  verify U news_text ai_result =
    (Val (ai_result, None), [CallModel (ClaimPrompt news_text)]).
Proof.
  intros X H. unfold verify.
  destruct (extract_claim_total U news_text) as [c' E]. rewrite E in X |- *.
  unfold outcome_of in X. cbn [fst] in X. injection X as ->.
  rewrite io_bind_of_val. destruct H as [-> | ->]; reflexivity.
Qed.

(** Step 2 when the extraction returns a claim: the lookup is made and its
    result, when there is one, is merged. *)
Lemma verify_with_claim (U : upstream) (news_text ai_result : value) (claim : string) :
  outcome_of (extract_claim_with_gemini U news_text) = Val (Some claim) ->
  claim <> "" ->
  verify U news_text ai_result =
    (match outcome_of (query_fact_check_api U claim) with
     | Val (Some fc) =>
         match merge_verdict ai_result fc with
         | Val merged => Val (merged, Some (fact_check_fields fc))
         | Exc e => Exc e
         end
     | Val None => Val (ai_result, None)
     | Exc e => Exc e
     end,
     CallModel (ClaimPrompt news_text) :: calls_of (query_fact_check_api U claim)).
Proof.
  intros X N. unfold verify.
  destruct (extract_claim_total U news_text) as [c' E]. rewrite E in X |- *.
  unfold outcome_of in X. cbn [fst] in X. injection X as ->.
  rewrite io_bind_of_val. apply String.eqb_neq in N. rewrite N. cbn [negb].
  destruct (query_fact_check_total U claim) as (r & t & Q). rewrite Q.
  rewrite io_bind_of_val. unfold outcome_of at 1, calls_of at 2. cbn [fst snd].
  destruct r as [fc|]; [|cbn; now rewrite app_nil_r].
  destruct (merge_verdict ai_result fc) as [merged|e] eqn:M.
  - rewrite io_bind_lift_val. cbn. now rewrite M, app_nil_r.
  - rewrite io_bind_lift_exc. cbn. now rewrite M, app_nil_r.
Qed.

(** The calls of step 2: the claim prompt, then at most one call of the
    registry, made with a claim that is not empty, the configured key, which
    is not empty, and the language "en". *)
Lemma verify_calls (U : upstream) (news_text ai_result : value) :
  calls_of (verify U news_text ai_result) = [CallModel (ClaimPrompt news_text)]
  \/ exists claim,
       claim <> "" /\ GOOGLE_FACT_CHECK_API_KEY U <> ""
       /\ calls_of (verify U news_text ai_result) =
            [CallModel (ClaimPrompt news_text);
             CallRegistry claim (GOOGLE_FACT_CHECK_API_KEY U) "en"].
Proof.
  destruct (extract_claim_total U news_text) as [c E].
  assert (X : outcome_of (extract_claim_with_gemini U news_text) = Val c) by now rewrite E.
  destruct c as [claim|].
  - destruct (string_dec claim "") as [->|N].
    + left. now rewrite (verify_without_claim U news_text ai_result _ X (or_intror eq_refl)).
    + rewrite (verify_with_claim U news_text ai_result claim X N).
      unfold calls_of at 1 3. cbn [snd].
      destruct (query_shape U claim) as [[K Q]|(K & r & Q)]; rewrite Q.
      * left. reflexivity.
      * right. exists claim. repeat split; assumption.
  - left. now rewrite (verify_without_claim U news_text ai_result _ X (or_introl eq_refl)).
Qed.

(** The end of the pipeline once step 2 is known. *)
Lemma finish_of_verify (U : upstream) (news_text ai_result merged : value)
    (fields : option dict) (t : list call) :
  verify U news_text ai_result = (Val (merged, fields), t) ->
  finish U news_text ai_result =
    (match final_result merged fields with
     | Val final => Val (jsonify final 200)
     | Exc e => Exc e
     end, t).
Proof.
  intro V. unfold finish. rewrite V, io_bind_of_val. cbn [fst snd].
  destruct (final_result merged fields) as [final|e].
  - rewrite io_bind_lift_val. cbn. now rewrite app_nil_r.
  - rewrite io_bind_lift_exc. cbn. now rewrite app_nil_r.
Qed.

Lemma finish_of_verify_exc (U : upstream) (news_text ai_result : value)
    (e : exn) (t : list call) :
  verify U news_text ai_result = (Exc e, t) ->
  finish U news_text ai_result = (Exc e, t).
Proof. intro V. unfold finish. now rewrite V. Qed.

Lemma finish_calls (U : upstream) (news_text ai_result : value) :
  calls_of (finish U news_text ai_result) = calls_of (verify U news_text ai_result).
Proof.
  destruct (verify U news_text ai_result) as [[[merged fields]|e] t] eqn:V.
  - now rewrite (finish_of_verify U news_text ai_result merged fields t V).
  - now rewrite (finish_of_verify_exc U news_text ai_result e t V).
Qed.

(** The calls of the pipeline: the analysis call, then the calls of step 2
    when the assessor returned a result. *)
Lemma pipeline_calls (U : upstream) (news_text news_url : value) :
  calls_of (pipeline U news_text news_url) =
    [CallModel (AnalysisPrompt news_text
                  (if truthy news_url then news_url else VStr "Not provided"))]
  \/ exists ai_result,
       calls_of (pipeline U news_text news_url) =
         CallModel (AnalysisPrompt news_text
                      (if truthy news_url then news_url else VStr "Not provided"))
           :: calls_of (verify U news_text ai_result).
Proof.
  unfold pipeline, call_model.
  destruct (generate_content U _) as [g|e]; [|left; reflexivity].
  rewrite io_bind_of_val.
  destruct (text_of_response g) as [text|e];
    [rewrite io_bind_lift_val | rewrite io_bind_lift_exc; left; reflexivity].
  destruct (assess U text) as [ai_result|e];
    [rewrite io_bind_lift_val | rewrite io_bind_lift_exc; left; reflexivity].
  right. exists ai_result. unfold calls_of at 1. cbn [snd app].
  now rewrite finish_calls.
Qed.

(** The calls of the handler, in order: none; or the analysis call; or the
    analysis call and the claim call; or these two and one call of the
    registry with a claim and a key that are not empty. *)
Lemma handler_calls (U : upstream) (data : value) :
  calls_of (analyze_news_endpoint U data) = []
  \/ exists content url,
       calls_of (analyze_news_endpoint U data) = [CallModel (AnalysisPrompt content url)]
       \/ calls_of (analyze_news_endpoint U data) =
            [CallModel (AnalysisPrompt content url); CallModel (ClaimPrompt content)]
       \/ exists claim,
            claim <> "" /\ GOOGLE_FACT_CHECK_API_KEY U <> ""
            /\ calls_of (analyze_news_endpoint U data) =
                 [CallModel (AnalysisPrompt content url); CallModel (ClaimPrompt content);
                  CallRegistry claim (GOOGLE_FACT_CHECK_API_KEY U) "en"].
Proof.
  destruct data as [| | | | | |d]; try (left; reflexivity).
  rewrite handler_on_object.
  set (content := match dict_get d "content" with Some x => x | None => VNone end).
  set (url := match dict_get d "url" with Some x => x | None => VNone end).
  destruct (truthy content); [|left; reflexivity].
  right. exists content, (if truthy url then url else VStr "Not provided").
  destruct (io_catch_val (pipeline U content url) (fun e => jsonify (internal_error e) 500))
    as (r & E & _).
  rewrite E.
  change (calls_of (Val r, calls_of (pipeline U content url)))
    with (calls_of (pipeline U content url)).
  destruct (pipeline_calls U content url) as [P|[ai_result P]]; rewrite P.
  - left. reflexivity.
  - right. destruct (verify_calls U content ai_result) as [V|(claim & N & K & V)]; rewrite V.
    + left. reflexivity.
    + right. exists claim. repeat split; assumption.
Qed.

Lemma query_answered (U : upstream) (claim : string) (data : value) :
  registry_answers U claim data ->
  query_fact_check_api U claim =
    (match first_review data with
     | Val r => Val r
     | Exc _ => Val None
     end, [CallRegistry claim (GOOGLE_FACT_CHECK_API_KEY U) "en"]).
Proof.
  intros (K & resp & G & S & J). unfold query_fact_check_api, call_registry.
  apply String.eqb_neq in K. rewrite K, G. unfold io_catch.
  rewrite io_bind_of_val, S, io_bind_lift_val, J, io_bind_lift_val.
  unfold io_lift, outcome_of, calls_of, io_ret. cbn [fst snd].
  destruct (first_review data); reflexivity.
Qed.

Lemma first_review_shape (d c rv : dict) (cs rvs : list value) :
  dict_get d "claims" = Some (VList (VDict c :: cs)) ->
  dict_get c "claimReview" = Some (VList (VDict rv :: rvs)) ->
  dict_get rv "publisher" = None \/ (exists p, dict_get rv "publisher" = Some (VDict p)) ->
  first_review (VDict d) =
    Val (Some (mk_fact_check (get_or_none rv "textualRating") (get_or_none rv "url")
                 (publisher_name rv))).
Proof.
  intros C R P. unfold first_review.
  assert (T : truthy (VDict d) = true) by (destruct d; [discriminate | reflexivity]).
  rewrite T. cbn [py_in obind]. unfold dict_has. rewrite C.
  cbn [py_getitem obind]. rewrite C. cbn [py_len obind List.length].
  replace (Z.of_nat (S (List.length cs)) >? 0) with true
    by (symmetry; apply Z.gtb_gt; lia).
  cbn [py_first py_get obind]. rewrite R. cbn [truthy py_first py_get obind].
  unfold get_or_none, publisher_name.
  destruct P as [P|[p P]]; rewrite P; reflexivity.
Qed.

(** What the body must be for the helper to read a result from it. *)
Lemma first_review_some (data : value) (fc : fact_check) :
  first_review data = Val (Some fc) ->
  exists d c cs rv rvs,
    data = VDict d
    /\ dict_get d "claims" = Some (VList (VDict c :: cs))
    /\ dict_get c "claimReview" = Some (VList (VDict rv :: rvs))
    /\ (dict_get rv "publisher" = None \/ exists p, dict_get rv "publisher" = Some (VDict p))
    /\ fc = mk_fact_check (get_or_none rv "textualRating") (get_or_none rv "url")
              (publisher_name rv).
Proof.
  unfold first_review. intro H.
  destruct (truthy data); [|discriminate].
  destruct data as [| | | |s|l|d]; cbn [py_in obind] in H; try discriminate.
  - destruct (Str.contains "claims" s); discriminate.
  - destruct (existsb _ l); discriminate.
  - unfold dict_has in H. destruct (dict_get d "claims") as [claims|] eqn:C; [|discriminate].
    cbn [py_getitem obind] in H. rewrite C in H. cbn [obind] in H.
    destruct claims as [| | | |s|l|d']; cbn [py_len obind] in H; try discriminate.
    + destruct (Z.of_nat (String.length s) >? 0); [|discriminate].
      destruct s; discriminate.
    + destruct (Z.of_nat (List.length l) >? 0); [|discriminate].
      destruct l as [|first cs]; [discriminate|]. cbn [py_first obind] in H.
      destruct first as [| | | | | |c]; try discriminate. cbn [py_get obind] in H.
      destruct (dict_get c "claimReview") as [review|] eqn:R; [|discriminate].
      destruct (truthy review) eqn:T; [|discriminate].
      destruct review as [| | | |s|l'|d']; cbn [py_first obind] in H; try discriminate.
      * destruct s; discriminate.
      * destruct l' as [|rv rvs]; [discriminate|]. cbn [obind] in H.
        destruct rv as [| | | | | |rv]; try discriminate. cbn [py_get obind] in H.
        exists d, c, cs, rv, rvs. repeat split; try assumption.
        -- destruct (dict_get rv "publisher") as [[| | | | | |p]|]; try discriminate;
             [right; now exists p | now left].
        -- unfold get_or_none, publisher_name.
           destruct (dict_get rv "publisher") as [[| | | | | |p]|]; try discriminate;
             cbn [py_get obind] in H; now injection H as <-.
    + destruct (Z.of_nat (List.length d') >? 0); discriminate.
Qed.







Lemma dict_has_set (d : dict) (k k0 : string) (v : value) :
  dict_get d k0 <> None -> dict_get (dict_set d k v) k0 <> None.
Proof.
  intro H. destruct (string_dec k k0) as [->|N].
  - now rewrite dict_get_set_same.
  - now rewrite dict_get_set_other.
Qed.

Lemma fields_get (b : dict) (fc : fact_check) :
  dict_get (dict_update b (fact_check_fields fc)) "factCheckVerdict" = Some (fc_verdict fc)
  /\ dict_get (dict_update b (fact_check_fields fc)) "factCheckUrl" = Some (fc_url fc)
  /\ dict_get (dict_update b (fact_check_fields fc)) "factCheckPublisher"
     = Some (fc_publisher fc)
  /\ forall k, ~ In k ["factCheckVerdict"; "factCheckUrl"; "factCheckPublisher"] ->
       dict_get (dict_update b (fact_check_fields fc)) k = dict_get b k.
Proof.
  unfold dict_update, fact_check_fields. cbn [fold_left fst snd]. repeat split.
  - now dict_simpl.
  - now dict_simpl.
  - now dict_simpl.
  - intros k N. simpl in N.
    rewrite !dict_get_set_other; [reflexivity | | |]; intro; subst k; tauto.
Qed.

Lemma fields_keep (b : dict) (fc : fact_check) (k : string) :
  dict_get b k <> None -> dict_get (dict_update b (fact_check_fields fc)) k <> None.
Proof.
  intro H. unfold dict_update, fact_check_fields. cbn [fold_left fst snd].
  now repeat apply dict_has_set.
Qed.

(** The merge returns a dict that has every key of [d]. *)
Lemma merge_keeps_keys (d : dict) (fc : fact_check) (v : value) :
  merge_verdict (VDict d) fc = Val v ->
  exists d', v = VDict d' /\ forall k, dict_get d k <> None -> dict_get d' k <> None.
Proof.
  unfold merge_verdict. destruct (fc_verdict fc) as [| | | |verdict| |]; try discriminate.
  destruct (says_false (Str.lower verdict)); [|destruct (says_true (Str.lower verdict))];
    cbn [py_setitem py_getitem obind].
  - destruct (dict_get _ "credibilityScore") as [score|]; [|discriminate]. cbn [obind].
    destruct (py_min score 20) as [lo|e]; [|discriminate]. cbn [obind py_getitem].
    destruct (dict_get _ "explanation") as [old|]; [|discriminate]. cbn [obind].
    destruct (py_concat _ old) as [x|e]; [|discriminate]. cbn [obind py_setitem].
    intros [= <-]. eexists. split; [reflexivity|].
    intros k H. now repeat apply dict_has_set.
  - destruct (dict_get _ "credibilityScore") as [score|]; [|discriminate]. cbn [obind].
    destruct (py_max score 80) as [hi|e]; [|discriminate]. cbn [obind py_getitem].
    destruct (dict_get _ "explanation") as [old|]; [|discriminate]. cbn [obind].
    destruct (py_concat _ old) as [x|e]; [|discriminate]. cbn [obind py_setitem].
    intros [= <-]. eexists. split; [reflexivity|].
    intros k H. now repeat apply dict_has_set.
  - destruct (dict_get _ "explanation") as [old|]; [|discriminate]. cbn [obind].
    destruct (py_concat _ old) as [x|e]; [|discriminate]. cbn [obind py_setitem].
    intros [= <-]. eexists. split; [reflexivity|].
    intros k H. now repeat apply dict_has_set.
Qed.

Lemma handler_of_assessed (U : upstream) (d : dict) (content ai_result : value) :
  assessed U d content ai_result ->
  analyze_news_endpoint U (VDict d) =
    (match outcome_of (finish U content ai_result) with
     | Val r => Val r
     | Exc e => Val (jsonify (internal_error e) 500)
     end,
     CallModel (AnalysisPrompt content (shown_url d))
       :: calls_of (finish U content ai_result)).
Proof.
  intros (C & T & g & text & G & X & A).
  exact (handler_assessed U d content g text ai_result C T G X A).
Qed.

(** The handler when step 2 leaves the assessor's result, a dict, as it is. *)
Lemma handler_without_fact_check (U : upstream) (d b : dict) (content : value)
    (t : list call) :
  assessed U d content (VDict b) ->
  verify U content (VDict b) = (Val (VDict b, None), t) ->
  analyze_news_endpoint U (VDict d) =
    (Val (mk_http_reply 200 (VDict b)),
     CallModel (AnalysisPrompt content (shown_url d)) :: t).
Proof.
  intros A V. rewrite (handler_of_assessed U d content _ A).
  now rewrite (finish_of_verify U content _ _ _ t V).
Qed.

(** The handler when the lookup returned a result: the merge, then the
    overlay of the three fields. *)
Lemma handler_with_fact_check (U : upstream) (d : dict) (content ai_result : value)
    (claim : string) (fc : fact_check) :
  assessed U d content ai_result ->
  fact_checked U content claim fc ->
  analyze_news_endpoint U (VDict d) =
    (match merge_verdict ai_result fc with
     | Val merged =>
         match py_mapping merged with
         | Val b => Val (mk_http_reply 200 (VDict (dict_update b (fact_check_fields fc))))
         | Exc e => Val (jsonify (internal_error e) 500)
         end
     | Exc e => Val (jsonify (internal_error e) 500)
     end,
     [CallModel (AnalysisPrompt content (shown_url d));
      CallModel (ClaimPrompt content);
      CallRegistry claim (GOOGLE_FACT_CHECK_API_KEY U) "en"]).
Proof.
  intros A (X & N & Q). rewrite (handler_of_assessed U d content _ A).
  pose proof (verify_with_claim U content ai_result claim X N) as V.
  rewrite Q in V.
  assert (C : calls_of (query_fact_check_api U claim)
              = [CallRegistry claim (GOOGLE_FACT_CHECK_API_KEY U) "en"]).
  { destruct (query_shape U claim) as [[_ E]|(_ & r & E)]; rewrite E in Q |- *;
      [discriminate | reflexivity]. }
  rewrite C in V.
  destruct (merge_verdict ai_result fc) as [merged|e].
  - rewrite (finish_of_verify U content _ _ _ _ V).
    unfold final_result, outcome_of, calls_of. cbn [fst snd].
    destruct (py_mapping merged) as [b|e]; reflexivity.
  - now rewrite (finish_of_verify_exc U content _ _ _ V).
Qed.

Lemma brace_cases (text : string) :
  no_brace_pair text \/ exists i j, brace_pair text i j.
Proof.
  unfold no_brace_pair, brace_pair.
  destruct (Z.eq_dec (Str.find "{" text) (-1)) as [A|A]; [left; now left|].
  destruct (Z_le_gt_dec (Str.rfind "}" text) (Str.find "{" text)) as [B|B].
  - left. right. now right.
  - right. exists (Str.find "{" text), (Str.rfind "}" text). repeat split; assumption.
Qed.

Lemma find_from_app (c : ascii) (pre rest : string) : forall i,
  Str.contains (String c EmptyString) pre = false ->
  Str.find_from (String c EmptyString) (pre ++ String c rest) i
  = i + Z.of_nat (String.length pre).
Proof.
  induction pre as [|a pre IH]; intros i H.
  - cbn [append Str.find_from]. rewrite prefix_one_cons.
    destruct (ascii_dec c c); [simpl; lia | contradiction].
  - cbn [Str.contains] in H. rewrite prefix_one_cons in H.
    cbn [append Str.find_from]. rewrite prefix_one_cons.
    destruct (ascii_dec c a); [discriminate|].
    rewrite (IH (i + 1) H). cbn [String.length]. lia.
Qed.

Lemma rfind_from_none (c : ascii) (s : string) : forall i,
  Str.contains (String c EmptyString) s = false ->
  Str.rfind_from (String c EmptyString) s i = -1.
Proof.
  induction s as [|a s IH]; intros i H; [reflexivity|].
  cbn [Str.contains] in H. rewrite prefix_one_cons in H.
  cbn [Str.rfind_from]. rewrite prefix_one_cons.
  destruct (ascii_dec c a); [discriminate|]. now rewrite (IH (i + 1) H).
Qed.

Lemma rfind_from_app (c : ascii) (pre post : string) : forall i, 0 <= i ->
  Str.contains (String c EmptyString) post = false ->
  Str.rfind_from (String c EmptyString) (pre ++ String c post) i
  = i + Z.of_nat (String.length pre).
Proof.
  induction pre as [|a pre IH]; intros i Hi H.
  - cbn [append Str.rfind_from]. rewrite (rfind_from_none c post (i + 1) H).
    rewrite prefix_one_cons. destruct (ascii_dec c c); [simpl; lia | contradiction].
  - cbn [append Str.rfind_from]. rewrite (IH (i + 1) ltac:(lia) H).
    destruct (i + 1 + Z.of_nat (String.length pre) =? -1) eqn:E;
      [apply Z.eqb_eq in E; lia|].
    cbn [String.length]. lia.
Qed.

(** The braces of a text made of [pre], an object text and [post]. *)
Lemma brace_pair_of_parts (pre mid post : string) :
  Str.contains "{" pre = false -> Str.contains "}" post = false ->
  brace_pair (pre ++ ("{" ++ mid ++ "}") ++ post)
    (Z.of_nat (String.length pre)) (Z.of_nat (String.length (pre ++ "{" ++ mid)))
  /\ Str.slice (pre ++ ("{" ++ mid ++ "}") ++ post)
       (Z.of_nat (String.length pre)) (Z.of_nat (String.length (pre ++ "{" ++ mid)) + 1)
     = "{" ++ mid ++ "}".
Proof.
  intros P Q.
  assert (L : String.length (pre ++ "{" ++ mid)
              = (String.length pre + S (String.length mid))%nat)
    by (rewrite length_append; reflexivity).
  assert (E : pre ++ ("{" ++ mid ++ "}") ++ post = (pre ++ "{" ++ mid) ++ String "}" post).
  { cbn [append]. rewrite (append_assoc pre). cbn [append]. f_equal. f_equal.
    now rewrite append_assoc. }
  split; [repeat split|].
  - unfold Str.find. cbn [append].
    rewrite (find_from_app "{" pre _ 0 P). lia.
  - unfold Str.rfind. rewrite E.
    rewrite (rfind_from_app "}" _ post 0 ltac:(lia) Q). lia.
  - lia.
  - rewrite L. lia.
  - unfold Str.slice. rewrite Nat2Z.id, substring_skip.
    replace (Z.to_nat (Z.of_nat (String.length (pre ++ "{" ++ mid)) + 1
                       - Z.of_nat (String.length pre)))
      with (String.length ("{" ++ mid ++ "}")).
    + apply substring_take.
    + rewrite L. cbn [append String.length]. rewrite length_append.
      cbn [String.length]. lia.
Qed.

Lemma pipeline_val_calls (U : upstream) (news_text news_url : value) (r : http_reply) :
  outcome_of (pipeline U news_text news_url) = Val r ->
  exists ai_result,
    calls_of (pipeline U news_text news_url) =
      CallModel (AnalysisPrompt news_text
                   (if truthy news_url then news_url else VStr "Not provided"))
        :: calls_of (verify U news_text ai_result).
Proof.
  unfold pipeline, call_model.
  destruct (generate_content U _) as [g|e]; [|discriminate].
  rewrite io_bind_of_val.
  destruct (text_of_response g) as [text|e];
    [rewrite io_bind_lift_val | rewrite io_bind_lift_exc; discriminate].
  destruct (assess U text) as [ai_result|e];
    [rewrite io_bind_lift_val | rewrite io_bind_lift_exc; discriminate].
  intros _. exists ai_result. unfold calls_of at 1. cbn [snd app].
  now rewrite finish_calls.
Qed.

(** ** Further properties of the helpers, the assessor, the merge and the handler *)



(** The extraction returns no claim, and raises nothing, when the call of the
    model raises and when the answer has no candidate, a first candidate
    without content, or a content without parts; the one call it made is the
    claim prompt. *)
Theorem extraction_failure_is_no_claim (U : upstream) (text : value) :
  (exists e, generate_content U (ClaimPrompt text) = Exc e)
  \/ (exists r, generate_content U (ClaimPrompt text) = Val r
                /\ first_part_text r = None) ->
  extract_claim_with_gemini U text = (Val None, [CallModel (ClaimPrompt text)]).
Proof.
  unfold extract_claim_with_gemini, call_model.
  intros [[e G]|(r & G & F)]; rewrite G; [reflexivity|].
  rewrite io_bind_of_val, F. reflexivity.
Qed.

Lemma extraction_failure_is_no_claim_witness :
  extract_claim_with_gemini
    (mk_upstream "registry-key"
       (fun _ => Val (Some (mk_gen_response [mk_candidate None]
                              (Exc (mk_exn OtherException "no valid part")))))
       (fun _ _ _ => Val (Stub.registry_reply VNone)) Json.loads)
    (VStr "An article.")
  = (Val None, [CallModel (ClaimPrompt (VStr "An article."))]).
Proof.
  apply (extraction_failure_is_no_claim
           (mk_upstream "registry-key"
              (fun _ => Val (Some (mk_gen_response [mk_candidate None]
                                     (Exc (mk_exn OtherException "no valid part")))))
              (fun _ _ _ => Val (Stub.registry_reply VNone)) Json.loads)
           (VStr "An article.")).
  right. eexists. split; reflexivity.
Defined.

(** With a key configured, the lookup returns no result, and raises nothing,
    when the request raises, when the status check raises and when the body
    does not decode. *)
Theorem registry_failure_is_no_result (U : upstream) (claim : string) :
  GOOGLE_FACT_CHECK_API_KEY U <> "" ->
  (exists e, requests_get U claim (GOOGLE_FACT_CHECK_API_KEY U) "en" = Exc e)
  \/ (exists resp e,
        requests_get U claim (GOOGLE_FACT_CHECK_API_KEY U) "en" = Val resp
        /\ (raise_for_status resp = Exc e
            \/ (raise_for_status resp = Val tt /\ response_json resp = Exc e))) ->
  query_fact_check_api U claim =
    (Val None, [CallRegistry claim (GOOGLE_FACT_CHECK_API_KEY U) "en"]).
Proof.
  intros K H. unfold query_fact_check_api, call_registry.
  apply String.eqb_neq in K. rewrite K.
  destruct H as [[e G]|(resp & e & G & [S|[S J]])]; rewrite G; [reflexivity| |].
  - rewrite io_bind_of_val, S. reflexivity.
  - rewrite io_bind_of_val, S, io_bind_lift_val, J. reflexivity.
Qed.

Lemma registry_failure_is_no_result_witness :
  query_fact_check_api
    (mk_upstream "registry-key"
       (fun _ => Val None)
       (fun _ _ _ =>
          Val (mk_http_response (Exc (mk_exn RequestException "503 Server Error"))
                 (Val VNone)))
       Json.loads)
    "A claim."
  = (Val None, [CallRegistry "A claim." "registry-key" "en"]).
Proof.
  apply (registry_failure_is_no_result
           (mk_upstream "registry-key"
              (fun _ => Val None)
              (fun _ _ _ =>
                 Val (mk_http_response (Exc (mk_exn RequestException "503 Server Error"))
                        (Val VNone)))
              Json.loads)
           "A claim.").
  - discriminate.
  - right. eexists. eexists. split; [reflexivity | left; reflexivity].
Defined.

(** Whatever the registry does, the lookup returns a value; it makes one
    call, with the claim as the query, the configured key and the language
    "en", when a key is configured, and no call and no result otherwise. *)
Theorem registry_lookup_never_raises (U : upstream) (claim : string) :
  exists r,
    query_fact_check_api U claim =
      (Val r,
       if (GOOGLE_FACT_CHECK_API_KEY U =? "")%string then []
       else [CallRegistry claim (GOOGLE_FACT_CHECK_API_KEY U) "en"])
    /\ (GOOGLE_FACT_CHECK_API_KEY U = "" -> r = None).
Proof.
  destruct (query_shape U claim) as [[K Q]|(K & r & Q)].
  - exists None. rewrite Q, K. split; reflexivity.
  - exists r. rewrite Q. apply String.eqb_neq in K. rewrite K.
    split; [reflexivity|]. apply String.eqb_neq in K. intro; contradiction.
Qed.

(** When the registry answers an object whose first claim has a first review
    that is an object, with a publisher that is absent or an object, the
    lookup returns the [textualRating] of that review as the verdict and its
    [url] ([None] when absent), and the [name] of its publisher, "Unknown"
    when the publisher or its name is absent; the other claims and reviews
    are not read. *)
Theorem first_review_is_reported (U : upstream) (claim : string)
    (d c rv : dict) (cs rvs : list value) :
  registry_answers U claim (VDict d) ->
  dict_get d "claims" = Some (VList (VDict c :: cs)) ->
  dict_get c "claimReview" = Some (VList (VDict rv :: rvs)) ->
  dict_get rv "publisher" = None \/ (exists p, dict_get rv "publisher" = Some (VDict p)) ->
  query_fact_check_api U claim =
    (Val (Some (mk_fact_check (get_or_none rv "textualRating") (get_or_none rv "url")
                  (publisher_name rv))),
     [CallRegistry claim (GOOGLE_FACT_CHECK_API_KEY U) "en"]).
Proof.
  intros A C R P. rewrite (query_answered U claim (VDict d) A).
  now rewrite (first_review_shape d c rv cs rvs C R P).
Qed.

Lemma first_review_is_reported_witness :
  query_fact_check_api
    (Stub.upstream_of "{}" "A claim."
       (VDict [("claims",
                VList [VDict [("text", VStr "A claim.");
                              ("claimReview",
                               VList [VDict [("publisher", VDict [("site", VStr "example.org")]);
                                             ("textualRating", VStr "Half true")];
                                      VDict [("textualRating", VStr "False")]])];
                       VDict []])]))
    "A claim."
  = (Val (Some (mk_fact_check (VStr "Half true") VNone (VStr "Unknown"))),
     [CallRegistry "A claim." "registry-key" "en"]).
Proof.
  apply (first_review_is_reported
           (Stub.upstream_of "{}" "A claim."
              (VDict [("claims",
                VList [VDict [("text", VStr "A claim.");
                              ("claimReview",
                               VList [VDict [("publisher", VDict [("site", VStr "example.org")]);
                                             ("textualRating", VStr "Half true")];
                                      VDict [("textualRating", VStr "False")]])];
                       VDict []])]))
           "A claim."
           [("claims",
             VList [VDict [("text", VStr "A claim.");
                           ("claimReview",
                            VList [VDict [("publisher", VDict [("site", VStr "example.org")]);
                                          ("textualRating", VStr "Half true")];
                                   VDict [("textualRating", VStr "False")]])];
                    VDict []])]
           [("text", VStr "A claim.");
            ("claimReview",
             VList [VDict [("publisher", VDict [("site", VStr "example.org")]);
                           ("textualRating", VStr "Half true")];
                    VDict [("textualRating", VStr "False")]])]
           [("publisher", VDict [("site", VStr "example.org")]);
            ("textualRating", VStr "Half true")]
           [VDict []] [VDict [("textualRating", VStr "False")]]).
  - split; [discriminate|]. eexists. repeat split.
  - reflexivity.
  - reflexivity.
  - right. eexists. reflexivity.
Defined.

(** The lookup returns a result only when a key is configured and the
    registry answered, with a status that passes the check, an object whose
    first claim is an object whose first review is an object; the result is
    read from that review.  Every other body (not an object, without claims,
    without reviews, of another shape) gives no result. *)
Theorem fact_check_result_comes_from_first_review (U : upstream) (claim : string)
    (fc : fact_check) :
  outcome_of (query_fact_check_api U claim) = Val (Some fc) ->
  exists d c cs rv rvs,
    registry_answers U claim (VDict d)
    /\ dict_get d "claims" = Some (VList (VDict c :: cs))
    /\ dict_get c "claimReview" = Some (VList (VDict rv :: rvs))
    /\ (dict_get rv "publisher" = None \/ exists p, dict_get rv "publisher" = Some (VDict p))
    /\ fc = mk_fact_check (get_or_none rv "textualRating") (get_or_none rv "url")
              (publisher_name rv).
Proof.
  unfold query_fact_check_api, call_registry, outcome_of.
  destruct (GOOGLE_FACT_CHECK_API_KEY U =? "")%string eqn:K; [discriminate|].
  apply String.eqb_neq in K.
  destruct (requests_get U claim (GOOGLE_FACT_CHECK_API_KEY U) "en") as [resp|e] eqn:G;
    [|discriminate].
  rewrite io_bind_of_val.
  destruct (raise_for_status resp) as [[]|e] eqn:S;
    [rewrite io_bind_lift_val | rewrite io_bind_lift_exc; discriminate].
  destruct (response_json resp) as [data|e] eqn:J;
    [rewrite io_bind_lift_val | rewrite io_bind_lift_exc; discriminate].
  unfold io_lift, io_catch, outcome_of, calls_of, io_ret. cbn [fst snd].
  destruct (first_review data) as [[fc'|]|e] eqn:F; try discriminate.
  intros [= ->].
  destruct (first_review_some data fc F) as (d & c & cs & rv & rvs & -> & C & R & P & E).
  exists d, c, cs, rv, rvs. repeat split; try assumption.
  exists resp. repeat split; assumption.
Qed.

Lemma fact_check_result_comes_from_first_review_witness :
  exists d,
    registry_answers
      (Stub.upstream_of "{}" "A claim."
         (Stub.registry_data [("textualRating", VStr "False")]))
      "A claim." (VDict d).
Proof.
  destruct (fact_check_result_comes_from_first_review
              (Stub.upstream_of "{}" "A claim."
                 (Stub.registry_data [("textualRating", VStr "False")]))
              "A claim." (mk_fact_check (VStr "False") VNone (VStr "Unknown")) eq_refl)
    as (d & _ & _ & _ & _ & A & _).
  exists d. exact A.
Defined.

(** Without a registry key the handler never calls the registry, whatever
    the request and the model's answers are, and the lookup returns no
    result. *)
Theorem no_key_no_registry_call (U : upstream) (data : value) :
  GOOGLE_FACT_CHECK_API_KEY U = "" ->
  (forall claim, query_fact_check_api U claim = (Val None, []))
  /\ forall query key language,
       ~ In (CallRegistry query key language) (calls_of (analyze_news_endpoint U data)).
Proof.
  intro K. split.
  - intro claim. destruct (query_shape U claim) as [[_ Q]|[N _]]; [exact Q | contradiction].
  - intros query key language I.
    destruct (handler_calls U data) as [E|(content & url & [E|[E|(claim & _ & N & _)]])];
      try contradiction; rewrite E in I; simpl in I;
      repeat (destruct I as [I|I]; try discriminate I); exact I.
Qed.

Lemma no_key_no_registry_call_witness :
  calls_of
    (analyze_news_endpoint
       (mk_upstream ""
          (fun p => match p with
                    | AnalysisPrompt _ _ => Val (Some (Stub.reply (Stub.analysis_json "70")))
                    | ClaimPrompt _ => Val (Some (Stub.reply "Water is wet."))
                    end)
          (fun _ _ _ => Val (Stub.registry_reply VNone)) Json.loads)
       (Stub.request_body "Water is wet."))
  = [CallModel (AnalysisPrompt (VStr "Water is wet.") (VStr "Not provided"));
     CallModel (ClaimPrompt (VStr "Water is wet."))]
  /\ forall query key language,
       ~ In (CallRegistry query key language)
           (calls_of
              (analyze_news_endpoint
                 (mk_upstream ""
                    (fun p => match p with
                              | AnalysisPrompt _ _ =>
                                  Val (Some (Stub.reply (Stub.analysis_json "70")))
                              | ClaimPrompt _ => Val (Some (Stub.reply "Water is wet."))
                              end)
                    (fun _ _ _ => Val (Stub.registry_reply VNone)) Json.loads)
                 (Stub.request_body "Water is wet."))).
Proof.
  split; [reflexivity|].
  apply (no_key_no_registry_call
           (mk_upstream ""
              (fun p => match p with
                        | AnalysisPrompt _ _ =>
                            Val (Some (Stub.reply (Stub.analysis_json "70")))
                        | ClaimPrompt _ => Val (Some (Stub.reply "Water is wet."))
                        end)
              (fun _ _ _ => Val (Stub.registry_reply VNone)) Json.loads)
           (Stub.request_body "Water is wet.")).
  reflexivity.
Defined.

(** When the assessment fails (the analysis call raises, [.text] raises, or
    the decoder raises something else than a [JSONDecodeError]), the reply is
    500 with the message of the exception after the fixed prefix, and the
    analysis call is the only outbound call: no claim is extracted and the
    registry is not called. *)
Theorem assessment_failure_is_500 (U : upstream) (d : dict) (content : value) (e : exn) :
  dict_get d "content" = Some content -> truthy content = true ->
  assessment_fails U d content e ->
  analyze_news_endpoint U (VDict d) =
    (Val (mk_http_reply 500
            (VDict [("error",
                     VStr ("An internal server error occurred during AI analysis: "
                           ++ exn_str e))])),
     [CallModel (AnalysisPrompt content (shown_url d))]).
Proof.
  intros C T F. rewrite handler_on_object, C, T. unfold pipeline, call_model.
  fold (shown_url d).
  destruct F as [G|(r & G & [[X A]|(text & i & j & X & P & L & J)])]; rewrite G.
  - reflexivity.
  - rewrite io_bind_of_val. cbn [text_of_response]. rewrite X, A. reflexivity.
  - rewrite io_bind_of_val. cbn [text_of_response]. rewrite X, io_bind_lift_val.
    rewrite (assess_pair U text i j P), L. cbn [obind]. rewrite J. reflexivity.
Qed.

Lemma assessment_failure_is_500_witness :
  analyze_news_endpoint
    (mk_upstream "registry-key"
       (fun _ => Exc (mk_exn OtherException "API key not valid."))
       (fun _ _ _ => Val (Stub.registry_reply VNone)) Json.loads)
    (Stub.request_body "Water is wet.")
  = (Val (mk_http_reply 500
            (VDict [("error",
                     VStr "An internal server error occurred during AI analysis: API key not valid.")])),
     [CallModel (AnalysisPrompt (VStr "Water is wet.") (VStr "Not provided"))]).
Proof.
  apply (assessment_failure_is_500
           (mk_upstream "registry-key"
              (fun _ => Exc (mk_exn OtherException "API key not valid."))
              (fun _ _ _ => Val (Stub.registry_reply VNone)) Json.loads)
           [("content", VStr "Water is wet.")] (VStr "Water is wet.")
           (mk_exn OtherException "API key not valid.")).
  - reflexivity.
  - reflexivity.
  - left. reflexivity.
Defined.

(** A body that is not an object (null, a boolean, a number, a text, a list)
    makes the handler raise an [AttributeError] that it does not catch,
    before any outbound call. *)
Theorem non_object_body_raises (U : upstream) (data : value) :
  (forall d, data <> VDict d) ->
  analyze_news_endpoint U data =
    (Exc (mk_exn AttributeError
            ("'" ++ type_name data ++ "' object has no attribute 'get'")), []).
Proof.
  intro N. destruct data as [| | | | | |d]; try reflexivity.
  now destruct (N d).
Qed.

Lemma non_object_body_raises_witness :
  analyze_news_endpoint (Stub.upstream_of "{}" "A claim." VNone)
    (VList [VDict [("content", VStr "Water is wet.")]])
  = (Exc (mk_exn AttributeError "'list' object has no attribute 'get'"), []).
Proof.
  apply (non_object_body_raises (Stub.upstream_of "{}" "A claim." VNone)
           (VList [VDict [("content", VStr "Water is wet.")]])).
  discriminate.
Defined.

(** On a body that is an object the handler always replies, with 400, 200 or
    500.  With 400 it made no call.  With 200 it made the analysis call,
    then the claim call, then at most one call of the registry.  With 500 it
    made the analysis call first and then a prefix of the same sequence. *)
Theorem handler_replies_with_calls_in_order (U : upstream) (d : dict) :
  exists r,
    outcome_of (analyze_news_endpoint U (VDict d)) = Val r
    /\ ((status r = 400 /\ calls_of (analyze_news_endpoint U (VDict d)) = [])
        \/ exists content url,
             let A := CallModel (AnalysisPrompt content url) in
             let C := CallModel (ClaimPrompt content) in
             (status r = 200
              /\ (calls_of (analyze_news_endpoint U (VDict d)) = [A; C]
                  \/ exists claim,
                       calls_of (analyze_news_endpoint U (VDict d)) =
                         [A; C; CallRegistry claim (GOOGLE_FACT_CHECK_API_KEY U) "en"]))
             \/ (status r = 500
                 /\ (calls_of (analyze_news_endpoint U (VDict d)) = [A]
                     \/ calls_of (analyze_news_endpoint U (VDict d)) = [A; C]
                     \/ exists claim,
                          calls_of (analyze_news_endpoint U (VDict d)) =
                            [A; C; CallRegistry claim (GOOGLE_FACT_CHECK_API_KEY U) "en"]))).
Proof.
  rewrite handler_on_object.
  set (content := match dict_get d "content" with Some x => x | None => VNone end).
  set (url := match dict_get d "url" with Some x => x | None => VNone end).
  destruct (truthy content).
  2:{ eexists. split; [reflexivity|]. left. split; reflexivity. }
  destruct (io_catch_val (pipeline U content url) (fun e => jsonify (internal_error e) 500))
    as (r & E & S).
  rewrite E. exists r. split; [reflexivity|]. right.
  exists content, (if truthy url then url else VStr "Not provided").
  change (calls_of (Val r, calls_of (pipeline U content url)))
    with (calls_of (pipeline U content url)).
  destruct S as [S|(e & S & ->)].
  - left. split; [exact (pipeline_status U content url r S)|].
    destruct (pipeline_val_calls U content url r S) as [ai_result P]. rewrite P.
    destruct (verify_calls U content ai_result) as [V|(claim & _ & _ & V)]; rewrite V.
    + left. reflexivity.
    + right. exists claim. reflexivity.
  - right. split; [reflexivity|].
    destruct (pipeline_calls U content url) as [P|[ai_result P]]; rewrite P.
    + left. reflexivity.
    + right.
      destruct (verify_calls U content ai_result) as [V|(claim & _ & _ & V)]; rewrite V.
      * left. reflexivity.
      * right. exists claim. reflexivity.
Qed.

(** When the analysis call answers [None], or an object without the
    attribute [text], the response text is taken to be empty: the assessor's
    result is the default with the explanation "... Could not parse Gemini's
    response ...", and the request goes on to step 2 and is answered with 200
    (500 only for a verdict of the registry that is not a text). *)
Theorem response_without_text_is_not_recognizable (U : upstream) (d : dict)
    (content : value) (g : option gen_response) :
  dict_get d "content" = Some content -> truthy content = true ->
  generate_content U (AnalysisPrompt content (shown_url d)) = Val g ->
  g = None
  \/ (exists r e, g = Some r /\ response_text r = Exc e /\ is_attribute_error e = true) ->
  assessed U d content (VDict default_not_recognizable)
  /\ exists r calls,
       analyze_news_endpoint U (VDict d) = (Val r, calls)
       /\ (status r = 200 \/ (status r = 500 /\ verdict_not_text U)).
Proof.
  intros C T G H.
  assert (X : text_of_response g = Val "").
  { destruct H as [->|(r & e & -> & R & A)]; [reflexivity|].
    cbn [text_of_response]. now rewrite R, A. }
  assert (A : assessed U d content (VDict default_not_recognizable)).
  { split; [exact C|]. split; [exact T|]. exists g, "". repeat split; assumption. }
  split; [exact A|].
  rewrite (handler_of_assessed U d content _ A).
  destruct (finish_status U content default_not_recognizable 50
              "AI content analysis failed: Could not parse Gemini's response (not valid JSON or incomplete)."
              eq_refl eq_refl)
    as [(r & R & S)|((x & R) & N)]; rewrite R.
  - exists r. eexists. split; [reflexivity | now left].
  - eexists. eexists. split; [reflexivity | right; split; [reflexivity | exact N]].
Qed.

Lemma response_without_text_is_not_recognizable_witness :
  assessed
    (mk_upstream "" (fun _ => Val None) (fun _ _ _ => Val (Stub.registry_reply VNone))
       Json.loads)
    [("content", VStr "Water is wet.")] (VStr "Water is wet.")
    (VDict default_not_recognizable).
Proof.
  apply (response_without_text_is_not_recognizable
           (mk_upstream "" (fun _ => Val None)
              (fun _ _ _ => Val (Stub.registry_reply VNone)) Json.loads)
           [("content", VStr "Water is wet.")] (VStr "Water is wet.") None).
  - reflexivity.
  - reflexivity.
  - reflexivity.
  - left. reflexivity.
Defined.

(** When the model answers the claim prompt with white space only, the
    extraction returns the empty text, which the handler treats as no claim:
    the registry is not called and the reply is 200 with the assessor's
    result, unchanged. *)
Theorem blank_claim_skips_registry (U : upstream) (d b : dict) (content : value)
    (r : option gen_response) (answer : string) :
  assessed U d content (VDict b) ->
  generate_content U (ClaimPrompt content) = Val r ->
  first_part_text r = Some answer ->
  Str.strip answer = "" ->
  extract_claim_with_gemini U content = (Val (Some ""), [CallModel (ClaimPrompt content)])
  /\ analyze_news_endpoint U (VDict d) =
       (Val (mk_http_reply 200 (VDict b)),
        [CallModel (AnalysisPrompt content (shown_url d)); CallModel (ClaimPrompt content)]).
Proof.
  intros A G F S.
  assert (E : extract_claim_with_gemini U content
              = (Val (Some ""), [CallModel (ClaimPrompt content)])).
  { unfold extract_claim_with_gemini, call_model. rewrite G, io_bind_of_val, F, S.
    reflexivity. }
  split; [exact E|].
  apply (handler_without_fact_check U d b content _ A).
  apply (verify_without_claim U content (VDict b) (Some "")); [now rewrite E | now right].
Qed.

Lemma blank_claim_skips_registry_witness :
  analyze_news_endpoint (Stub.upstream_of (Stub.analysis_json "70") "   " VNone)
    (Stub.request_body "Water is wet.")
  = (Val (mk_http_reply 200
            (VDict [("credibilityScore", VInt 70); ("classification", VStr "real");
                    ("explanation", VStr "Neutral tone."); ("details", VDict [])])),
     [CallModel (AnalysisPrompt (VStr "Water is wet.") (VStr "Not provided"));
      CallModel (ClaimPrompt (VStr "Water is wet."))]).
Proof.
  apply (blank_claim_skips_registry
           (Stub.upstream_of (Stub.analysis_json "70") "   " VNone)
           [("content", VStr "Water is wet.")]
           [("credibilityScore", VInt 70); ("classification", VStr "real");
            ("explanation", VStr "Neutral tone."); ("details", VDict [])]
           (VStr "Water is wet.") (Some (Stub.reply "   ")) "   ").
  - split; [reflexivity|]. split; [reflexivity|].
    exists (Some (Stub.reply (Stub.analysis_json "70"))), (Stub.analysis_json "70").
    repeat split.
  - reflexivity.
  - reflexivity.
  - reflexivity.
Defined.

(** When a claim is extracted and the lookup returns no result, the reply is
    200 with the assessor's result, unchanged: no classification, score or
    explanation is touched and no field is added. *)
Theorem lookup_without_result_keeps_assessment (U : upstream) (d b : dict)
    (content : value) (claim : string) :
  assessed U d content (VDict b) ->
  outcome_of (extract_claim_with_gemini U content) = Val (Some claim) ->
  claim <> "" ->
  outcome_of (query_fact_check_api U claim) = Val None ->
  analyze_news_endpoint U (VDict d) =
    (Val (mk_http_reply 200 (VDict b)),
     CallModel (AnalysisPrompt content (shown_url d))
       :: CallModel (ClaimPrompt content) :: calls_of (query_fact_check_api U claim)).
Proof.
  intros A X N Q.
  apply (handler_without_fact_check U d b content _ A).
  rewrite (verify_with_claim U content (VDict b) claim X N). now rewrite Q.
Qed.

Lemma lookup_without_result_keeps_assessment_witness :
  analyze_news_endpoint
    (Stub.upstream_of (Stub.analysis_json "70") "Water is wet." (VDict [("claims", VList [])]))
    (Stub.request_body "Water is wet.")
  = (Val (mk_http_reply 200
            (VDict [("credibilityScore", VInt 70); ("classification", VStr "real");
                    ("explanation", VStr "Neutral tone."); ("details", VDict [])])),
     [CallModel (AnalysisPrompt (VStr "Water is wet.") (VStr "Not provided"));
      CallModel (ClaimPrompt (VStr "Water is wet."));
      CallRegistry "Water is wet." "registry-key" "en"]).
Proof.
  apply (lookup_without_result_keeps_assessment
           (Stub.upstream_of (Stub.analysis_json "70") "Water is wet."
              (VDict [("claims", VList [])]))
           [("content", VStr "Water is wet.")]
           [("credibilityScore", VInt 70); ("classification", VStr "real");
            ("explanation", VStr "Neutral tone."); ("details", VDict [])]
           (VStr "Water is wet.") "Water is wet.").
  - split; [reflexivity|]. split; [reflexivity|].
    exists (Some (Stub.reply (Stub.analysis_json "70"))), (Stub.analysis_json "70").
    repeat split.
  - reflexivity.
  - discriminate.
  - reflexivity.
Defined.

(** When the lookup returns a result and the merge succeeds, the reply is
    200 and its body is the merged result overlaid with [factCheckVerdict],
    [factCheckUrl] and [factCheckPublisher]: these three fields hold the
    values of the registry, also when the model's object had keys of these
    names, and every other key holds the value of the merged result. *)
Theorem fact_check_fields_overlay (U : upstream) (d m : dict) (content ai_result : value)
    (claim : string) (fc : fact_check) :
  assessed U d content ai_result ->
  fact_checked U content claim fc ->
  merge_verdict ai_result fc = Val (VDict m) ->
  exists b,
    analyze_news_endpoint U (VDict d) =
      (Val (mk_http_reply 200 (VDict b)),
       [CallModel (AnalysisPrompt content (shown_url d));
        CallModel (ClaimPrompt content);
        CallRegistry claim (GOOGLE_FACT_CHECK_API_KEY U) "en"])
    /\ dict_get b "factCheckVerdict" = Some (fc_verdict fc)
    /\ dict_get b "factCheckUrl" = Some (fc_url fc)
    /\ dict_get b "factCheckPublisher" = Some (fc_publisher fc)
    /\ forall k, ~ In k ["factCheckVerdict"; "factCheckUrl"; "factCheckPublisher"] ->
         dict_get b k = dict_get m k.
Proof.
  intros A F M. exists (dict_update m (fact_check_fields fc)).
  split; [|apply fields_get].
  rewrite (handler_with_fact_check U d content ai_result claim fc A F), M. reflexivity.
Qed.

Lemma fact_check_fields_overlay_witness :
  exists b,
    analyze_news_endpoint
      (Stub.upstream_of (Stub.analysis_json_with_verdict "70") "Water is wet."
         (Stub.registry_data [("textualRating", VStr "Unproven")]))
      (Stub.request_body "Water is wet.")
    = (Val (mk_http_reply 200 (VDict b)),
       [CallModel (AnalysisPrompt (VStr "Water is wet.") (VStr "Not provided"));
        CallModel (ClaimPrompt (VStr "Water is wet."));
        CallRegistry "Water is wet." "registry-key" "en"])
    /\ dict_get b "factCheckVerdict" = Some (VStr "Unproven")
    /\ dict_get b "credibilityScore" = Some (VInt 70).
Proof.
  destruct (fact_check_fields_overlay
              (Stub.upstream_of (Stub.analysis_json_with_verdict "70") "Water is wet."
                 (Stub.registry_data [("textualRating", VStr "Unproven")]))
              [("content", VStr "Water is wet.")]
              [("factCheckVerdict", VStr "True"); ("credibilityScore", VInt 70);
               ("classification", VStr "uncertain");
               ("explanation", VStr "External fact-check verdict: Unproven. Neutral tone.");
               ("details", VDict []);
               ("classificationDisplay", VStr "FACT-CHECKED: UNPROVEN")]
              (VStr "Water is wet.")
              (VDict [("factCheckVerdict", VStr "True"); ("credibilityScore", VInt 70);
                      ("classification", VStr "real");
                      ("explanation", VStr "Neutral tone."); ("details", VDict [])])
              "Water is wet." (mk_fact_check (VStr "Unproven") VNone (VStr "Unknown")))
    as (b & H & V & _ & _ & K).
  - split; [reflexivity|]. split; [reflexivity|].
    exists (Some (Stub.reply (Stub.analysis_json_with_verdict "70"))),
      (Stub.analysis_json_with_verdict "70").
    repeat split.
  - split; [reflexivity|]. split; [discriminate | reflexivity].
  - reflexivity.
  - exists b. split; [exact H|]. split; [exact V|].
    rewrite K; [reflexivity|]. simpl. intros [E|[E|[E|[]]]]; discriminate.
Defined.

(** When the lookup returns a result whose verdict is not a text (absent
    [textualRating], a number, an object, ...), the reply is 500 whatever the
    assessor's result is; the message names the type of the verdict. *)
Theorem non_text_verdict_is_500 (U : upstream) (d : dict) (content ai_result : value)
    (claim : string) (fc : fact_check) :
  assessed U d content ai_result ->
  fact_checked U content claim fc ->
  (forall s, fc_verdict fc <> VStr s) ->
  analyze_news_endpoint U (VDict d) =
    (Val (mk_http_reply 500
            (VDict [("error",
                     VStr ("An internal server error occurred during AI analysis: '"
                           ++ type_name (fc_verdict fc)
                           ++ "' object has no attribute 'lower'"))])),
     [CallModel (AnalysisPrompt content (shown_url d));
      CallModel (ClaimPrompt content);
      CallRegistry claim (GOOGLE_FACT_CHECK_API_KEY U) "en"]).
Proof.
  intros A F N. rewrite (handler_with_fact_check U d content ai_result claim fc A F).
  unfold merge_verdict.
  destruct (fc_verdict fc) as [| | | |s| |]; try reflexivity.
  now destruct (N s).
Qed.

Lemma non_text_verdict_is_500_witness :
  analyze_news_endpoint
    (Stub.upstream_of (Stub.analysis_json "70") "Water is wet."
       (Stub.registry_data [("textualRating", VInt 4)]))
    (Stub.request_body "Water is wet.")
  = (Val (mk_http_reply 500
            (VDict [("error",
                     VStr "An internal server error occurred during AI analysis: 'int' object has no attribute 'lower'")])),
     [CallModel (AnalysisPrompt (VStr "Water is wet.") (VStr "Not provided"));
      CallModel (ClaimPrompt (VStr "Water is wet."));
      CallRegistry "Water is wet." "registry-key" "en"]).
Proof.
  apply (non_text_verdict_is_500
           (Stub.upstream_of (Stub.analysis_json "70") "Water is wet."
              (Stub.registry_data [("textualRating", VInt 4)]))
           [("content", VStr "Water is wet.")] (VStr "Water is wet.")
           (VDict [("credibilityScore", VInt 70); ("classification", VStr "real");
                   ("explanation", VStr "Neutral tone."); ("details", VDict [])])
           "Water is wet." (mk_fact_check (VInt 4) VNone (VStr "Unknown"))).
  - split; [reflexivity|]. split; [reflexivity|].
    exists (Some (Stub.reply (Stub.analysis_json "70"))), (Stub.analysis_json "70").
    repeat split.
  - split; [reflexivity|]. split; [discriminate | reflexivity].
  - intros s. discriminate.
Defined.

(** The assessor looks only at the part of the text from the first opening
    brace to the last closing brace: prose before it without an opening
    brace, and prose after it without a closing brace, do not change the
    result. *)
Theorem assess_ignores_surroundings (U : upstream) (pre mid post : string) :
  Str.contains "{" pre = false -> Str.contains "}" post = false ->
  assess U (pre ++ ("{" ++ mid ++ "}") ++ post) = assess U ("{" ++ mid ++ "}").
Proof.
  intros P Q.
  destruct (brace_pair_of_parts pre mid post P Q) as [B S].
  destruct (brace_pair_of_parts "" mid "" eq_refl eq_refl) as [B' S'].
  rewrite (assess_pair U _ _ _ B), S.
  cbn [append] in B', S'. rewrite append_assoc in B', S'. cbn [append] in B', S'.
  replace (mid ++ "}" ++ "") with (mid ++ "}") in B', S'
    by (f_equal).
  cbn [append]. rewrite (assess_pair U _ _ _ B'), S'. reflexivity.
Qed.

Lemma assess_ignores_surroundings_witness :
  assess (Stub.upstream_of "" "A claim." VNone)
    ("Sure! ```json " ++ ("{" ++ "}") ++ " ```")
  = assess (Stub.upstream_of "" "A claim." VNone) ("{" ++ "}").
Proof.
  apply (assess_ignores_surroundings (Stub.upstream_of "" "A claim." VNone)
           "Sure! ```json " "" " ```"); reflexivity.
Defined.

(** A dict that the assessor returns has the four required keys, whatever
    the model and the decoder answered. *)
Theorem assessor_result_has_required_keys (U : upstream) (text : string) (b : dict) :
  assess U text = Val (VDict b) ->
  forall k, In k ["credibilityScore"; "classification"; "explanation"; "details"] ->
    dict_get b k <> None.
Proof.
  intros A k I.
  assert (D : forall x y, dict_get (default_result x y) k <> None).
  { intros x y. simpl in I. destruct I as [<-|[<-|[<-|[<-|[]]]]]; discriminate. }
  destruct (brace_cases text) as [N|(i & j & P)].
  - unfold assess in A. rewrite (locate_json_none text N) in A.
    cbn in A. injection A as <-. apply D.
  - rewrite (assess_pair U text i j P) in A.
    destruct (json_loads U (Str.slice text i (j + 1))) as [parsed|e]; cbn [obind] in A.
    + destruct (py_all_in REQUIRED_KEYS parsed) as [[|]|e] eqn:K; cbn [obind] in A.
      * injection A as ->. rewrite py_all_in_dict in K.
        assert (F : forallb (dict_has b) REQUIRED_KEYS = true) by congruence.
        rewrite forallb_forall in F. specialize (F k I). unfold dict_has in F.
        destruct (dict_get b k); [discriminate | discriminate].
      * injection A as <-. apply D.
      * destruct (is_json_decode_error e); [injection A as <-; apply D | discriminate].
    + destruct (is_json_decode_error e); [injection A as <-; apply D | discriminate].
Qed.

Lemma assessor_result_has_required_keys_witness :
  dict_get default_missing_keys "details" <> None.
Proof.
  apply (assessor_result_has_required_keys (Stub.upstream_of "" "A claim." VNone)
           "{}" default_missing_keys).
  - reflexivity.
  - simpl. tauto.
Defined.





(** The assessor checks the presence of the four keys, not their types: when
    a keyword verdict meets a score that is not a number, or any text verdict
    meets an explanation that is not a text, the merge raises a [TypeError]
    and the reply is 500. *)
Theorem unusable_assessment_is_500 (U : upstream) (d b : dict) (content score old : value)
    (claim verdict : string) (fc : fact_check) :
  assessed U d content (VDict b) ->
  fact_checked U content claim fc ->
  fc_verdict fc = VStr verdict ->
  dict_get b "credibilityScore" = Some score ->
  dict_get b "explanation" = Some old ->
  ((says_false (Str.lower verdict) = true \/ says_true (Str.lower verdict) = true)
   /\ not_a_number score)
  \/ (forall s, old <> VStr s) ->
  (exists e, merge_verdict (VDict b) fc = Exc e /\ exn_class_of e = TypeError)
  /\ exists r calls,
       analyze_news_endpoint U (VDict d) = (Val r, calls) /\ status r = 500.
Proof.
  intros A F V S E H.
  assert (M : exists e, merge_verdict (VDict b) fc = Exc e /\ exn_class_of e = TypeError).
  { unfold merge_verdict. rewrite V.
    destruct (says_false (Str.lower verdict)) eqn:SF;
      [|destruct (says_true (Str.lower verdict)) eqn:ST];
      cbn [py_setitem py_getitem obind];
      rewrite ?dict_get_set_other by discriminate.
    - rewrite S. cbn [obind].
      destruct (py_min score 20) as [lo|e] eqn:P.
      + cbn [obind py_getitem]. rewrite !dict_get_set_other, E by discriminate.
        cbn [obind].
        destruct H as [[_ N]|N].
        * destruct score; try contradiction; discriminate.
        * destruct old as [| | | |s| |]; try (eexists; split; reflexivity).
          now destruct (N s).
      + cbn [obind]. exists e. split; [reflexivity|].
        destruct score; try discriminate; cbn in P; injection P as <-; reflexivity.
    - rewrite S. cbn [obind].
      destruct (py_max score 80) as [hi|e] eqn:P.
      + cbn [obind py_getitem]. rewrite !dict_get_set_other, E by discriminate.
        cbn [obind].
        destruct H as [[_ N]|N].
        * destruct score; try contradiction; discriminate.
        * destruct old as [| | | |s| |]; try (eexists; split; reflexivity).
          now destruct (N s).
      + cbn [obind]. exists e. split; [reflexivity|].
        destruct score; try discriminate; cbn in P; injection P as <-; reflexivity.
    - rewrite E. cbn [obind].
      destruct H as [[[X|X] _]|N]; try discriminate.
      destruct old as [| | | |s| |]; try (eexists; split; reflexivity).
      now destruct (N s). }
  split; [exact M|].
  destruct M as (e & M & _).
  rewrite (handler_with_fact_check U d content (VDict b) claim fc A F), M.
  eexists. eexists. split; reflexivity.
Qed.

Lemma unusable_assessment_is_500_witness :
  exists r calls,
    analyze_news_endpoint
      (Stub.upstream_of (Stub.analysis_json (Stub.q "70")) "Water is wet."
         (Stub.registry_data [("textualRating", VStr "True")]))
      (Stub.request_body "Water is wet.") = (Val r, calls)
    /\ status r = 500.
Proof.
  apply (unusable_assessment_is_500
           (Stub.upstream_of (Stub.analysis_json (Stub.q "70")) "Water is wet."
              (Stub.registry_data [("textualRating", VStr "True")]))
           [("content", VStr "Water is wet.")]
           [("credibilityScore", VStr "70"); ("classification", VStr "real");
            ("explanation", VStr "Neutral tone."); ("details", VDict [])]
           (VStr "Water is wet.") (VStr "70") (VStr "Neutral tone.")
           "Water is wet." "True" (mk_fact_check (VStr "True") VNone (VStr "Unknown"))).
  - split; [reflexivity|]. split; [reflexivity|].
    exists (Some (Stub.reply (Stub.analysis_json (Stub.q "70")))),
      (Stub.analysis_json (Stub.q "70")).
    repeat split.
  - split; [reflexivity|]. split; [discriminate | reflexivity].
  - reflexivity.
  - reflexivity.
  - reflexivity.
  - left. split; [right; reflexivity | exact I].
Defined.

(** No field of the assessor's result is removed: when the reply is 200,
    every key of the assessor's result is a key of the body. *)
Theorem response_keeps_assessor_keys (U : upstream) (d b : dict) (content : value)
    (r : http_reply) :
  assessed U d content (VDict b) ->
  outcome_of (analyze_news_endpoint U (VDict d)) = Val r ->
  status r = 200 ->
  exists b',
    body r = VDict b' /\ forall k, dict_get b k <> None -> dict_get b' k <> None.
Proof.
  intros A R S. rewrite (handler_of_assessed U d content _ A) in R.
  unfold outcome_of at 1 in R. cbn [fst] in R.
  destruct (verify_cases U content (VDict b)) as [t [V|(claim & fc & _ & V)]].
  - rewrite (finish_of_verify U content _ _ _ t V) in R. cbn in R.
    injection R as <-. exists b. split; [reflexivity | trivial].
  - destruct (merge_verdict (VDict b) fc) as [merged|e] eqn:M.
    + destruct (merge_keeps_keys b fc merged M) as (m & -> & K).
      rewrite (finish_of_verify U content _ _ _ t V) in R. cbn in R.
      injection R as <-. eexists. split; [reflexivity|].
      intros k H. apply fields_keep, K, H.
    + rewrite (finish_of_verify_exc U content _ _ t V) in R. cbn in R.
      injection R as <-. discriminate.
Qed.

Lemma response_keeps_assessor_keys_witness :
  exists b',
    body (mk_http_reply 200
            (VDict [("credibilityScore", VInt 20); ("classification", VStr "fake");
                    ("explanation",
                     VStr "External fact-check confirms this claim is False. Neutral tone.");
                    ("details", VDict []);
                    ("classificationDisplay", VStr "FACT-CHECKED: FALSE");
                    ("factCheckVerdict", VStr "False");
                    ("factCheckUrl", VNone);
                    ("factCheckPublisher", VStr "Unknown")]))
    = VDict b'
    /\ forall k,
         dict_get [("credibilityScore", VInt 70); ("classification", VStr "real");
                   ("explanation", VStr "Neutral tone."); ("details", VDict [])] k <> None ->
         dict_get b' k <> None.
Proof.
  apply (response_keeps_assessor_keys
           (Stub.upstream_of (Stub.analysis_json "70") "Water is wet."
              (Stub.registry_data [("textualRating", VStr "False")]))
           [("content", VStr "Water is wet.")]
           [("credibilityScore", VInt 70); ("classification", VStr "real");
            ("explanation", VStr "Neutral tone."); ("details", VDict [])]
           (VStr "Water is wet.")).
  - split; [reflexivity|]. split; [reflexivity|].
    exists (Some (Stub.reply (Stub.analysis_json "70"))), (Stub.analysis_json "70").
    repeat split.
  - reflexivity.
  - reflexivity.
Defined.
